(** * Research-paper-to-blog converter: a model of [app.py]

    The program is a sequential script: it extracts the text of an uploaded
    PDF, splits it into overlapping chunks, indexes the chunks, asks a hosted
    model for a summary and shows the result.  The script's own functions
    ([get_pdf_text], [get_text_chunks], [get_vectorstore] and the upload
    handler) are embedded below as executable definitions; the external
    collaborators (PyMuPDF, the embedding model, FAISS, the chat model) are
    a record of oracles that either return or raise.  *)

From Stdlib Require Import String Ascii List ZArith NArith QArith Lia Bool.
From Stdlib Require DecimalString.
Import ListNotations.

Local Open Scope Z_scope.

(** ** Python values *)

(** A Python [str] is a sequence of Unicode code points. *)
Definition char : Type := N.
Definition str : Type := list char.

(** An ASCII literal of the script, as a [str]. *)
Definition py (s : string) : str := map N_of_ascii (list_ascii_of_string s).

Arguments py s : simpl never.

(** The built-in [len]. *)
Definition len {A : Type} (l : list A) : Z := Z.of_nat (length l).

Definition LF : char := 10%N.

(** [str(n)] for a non-negative integer. *)
Definition str_of_nat (n : nat) : str :=
  py (DecimalString.NilZero.string_of_uint (Nat.to_uint n)).

Arguments str_of_nat n : simpl never.

(** An exception, carrying the text that [f"{e}"] renders. *)
Record exn : Type := Exception { exn_msg : str }.

Inductive outcome (A : Type) : Type :=
| Returns (a : A)
| Raises (e : exn).
Arguments Returns {A} a.
Arguments Raises {A} e.

Definition IndexError : exn := Exception (py "list index out of range").

(** [str.isspace] on one code point (CPython's [_PyUnicode_IsWhitespace]). *)
Definition isspace (c : char) : bool :=
  ((9 <=? c) && (c <=? 13) || (28 <=? c) && (c <=? 32)
   || (c =? 133) || (c =? 160) || (c =? 5760)
   || (8192 <=? c) && (c <=? 8202)
   || (c =? 8232) || (c =? 8233) || (c =? 8239) || (c =? 8287)
   || (c =? 12288))%N.

Fixpoint lstrip (s : str) : str :=
  match s with
  | [] => []
  | c :: rest => if isspace c then lstrip rest else s
  end.

Definition rstrip (s : str) : str := rev (lstrip (rev s)).

(** [s.strip()] *)
Definition strip (s : str) : str := rstrip (lstrip s).

(** [separator.join(docs)] *)
Fixpoint join (separator : str) (docs : list str) : str :=
  match docs with
  | [] => []
  | d :: rest =>
      match rest with
      | [] => d
      | _ :: _ => d ++ separator ++ join separator rest
      end
  end.

Fixpoint starts_with (p s : str) : bool :=
  match p, s with
  | [], _ => true
  | _ :: _, [] => false
  | a :: p', b :: s' => (a =? b)%N && starts_with p' s'
  end.

(** ** The text splitter

    [get_text_chunks] delegates to the [CharacterTextSplitter] of the
    LangChain library, which is a dependency of the script and not part of
    it.  The module below follows the library's code
    ([CharacterTextSplitter.split_text], [_split_text_with_regex],
    [TextSplitter._join_docs], [TextSplitter._merge_splits]) for the
    options the script leaves at their defaults ([keep_separator=False],
    [is_separator_regex=False], [strip_whitespace=True],
    [length_function=len]); the separator, the chunk size and the overlap
    are the constructor's arguments. *)
Module CharacterTextSplitter.

Record t : Type := {
  _separator : str;
  _chunk_size : Z;
  _chunk_overlap : Z
}.

(** [re.split(re.escape(separator), text)] for a non-empty literal
    separator: cut at the leftmost occurrences, which do not overlap.
    [skip] counts the characters of a matched separator still to pass;
    [piece] is the current piece, reversed. *)
Fixpoint re_split (separator : str) (skip : nat) (piece : str) (text : str)
  : list str :=
  match text with
  | [] => [rev piece]
  | c :: rest =>
      match skip with
      | S k => re_split separator k piece rest
      | O =>
          if starts_with separator text
          then rev piece :: re_split separator (length separator - 1) [] rest
          else re_split separator 0 (c :: piece) rest
      end
  end.

(** [_split_text_with_regex(text, separator, keep_separator=False)] *)
Definition _split_text_with_regex (text : str) (separator : str) : list str :=
  let splits :=
    match separator with
    | [] => map (fun c => [c]) text
    | _ :: _ => re_split separator 0 [] text
    end in
  filter (fun s => negb (Nat.eqb (length s) 0)) splits.

(** [_join_docs]: join, strip, and [None] for an empty result. *)
Definition _join_docs (docs : list str) (separator : str) : option str :=
  let text := strip (join separator docs) in
  match text with
  | [] => None
  | _ :: _ => Some text
  end.

Section Merge.
Variable self : t.
Variable separator : str.

Definition separator_len : Z := len separator.

(** The condition of the [while] loop that drops leading pieces. *)
Definition keep_popping (_len : Z) (current_doc : list str) (total : Z) : bool :=
  (total >? _chunk_overlap self)
  || ((total + _len + (if len current_doc >? 0 then separator_len else 0)
         >? _chunk_size self)
      && (total >? 0)).

(** The [while] loop; [current_doc[0]] on an empty list raises. *)
Fixpoint pop_while (_len : Z) (current_doc : list str) (total : Z)
  : outcome (list str * Z) :=
  if keep_popping _len current_doc total then
    match current_doc with
    | [] => Raises IndexError
    | d0 :: rest =>
        pop_while _len rest
          (total - (len d0 + (if len current_doc >? 1 then separator_len else 0)))
    end
  else Returns (current_doc, total).

(** The state of the [for] loop: [docs], [current_doc], [total]. *)
Record merge_state : Type := {
  docs : list str;
  current_doc : list str;
  total : Z
}.

Definition append_doc (docs : list str) (doc : option str) : list str :=
  match doc with
  | Some d => docs ++ [d]
  | None => docs
  end.

(** One iteration of [for d in splits].  The warning the library logs
    when [total] already exceeds the chunk size changes nothing and is
    left out. *)
Definition merge_step (st : merge_state) (d : str) : outcome merge_state :=
  let _len := len d in
  let flushed :=
    if total st + _len + (if len (current_doc st) >? 0 then separator_len else 0)
         >? _chunk_size self
    then
      if len (current_doc st) >? 0 then
        let docs' := append_doc (docs st) (_join_docs (current_doc st) separator) in
        match pop_while _len (current_doc st) (total st) with
        | Returns (cur, tot) =>
            Returns {| docs := docs'; current_doc := cur; total := tot |}
        | Raises e => Raises e
        end
      else Returns st
    else Returns st in
  match flushed with
  | Returns st1 =>
      let cur := current_doc st1 ++ [d] in
      Returns {| docs := docs st1;
                 current_doc := cur;
                 total := total st1 + _len
                          + (if len cur >? 1 then separator_len else 0) |}
  | Raises e => Raises e
  end.

Fixpoint merge_loop (splits : list str) (st : merge_state) : outcome merge_state :=
  match splits with
  | [] => Returns st
  | d :: rest =>
      match merge_step st d with
      | Returns st' => merge_loop rest st'
      | Raises e => Raises e
      end
  end.

(** [_merge_splits(splits, separator)] *)
Definition _merge_splits (splits : list str) : outcome (list str) :=
  match merge_loop splits {| docs := []; current_doc := []; total := 0 |} with
  | Returns st =>
      Returns (append_doc (docs st) (_join_docs (current_doc st) separator))
  | Raises e => Raises e
  end.
End Merge.

(** [split_text(text)] *)
Definition split_text (self : t) (text : str) : outcome (list str) :=
  let splits := _split_text_with_regex text (_separator self) in
  _merge_splits self (_separator self) splits.

End CharacterTextSplitter.

(** ** [app.py]: splitting into chunks *)

(** The splitter that every call builds, from constants alone. *)
Definition splitter : CharacterTextSplitter.t :=
  {| CharacterTextSplitter._separator := [LF];
     CharacterTextSplitter._chunk_size := 1000;
     CharacterTextSplitter._chunk_overlap := 200 |}.

Definition get_text_chunks (text : str) : outcome (list str) :=
  CharacterTextSplitter.split_text splitter text.

(** ** External collaborators

    Every call into a library either returns or raises.  A [world] fixes
    what each call does during one run of the script. *)

(** An opened PDF: what iterating the pages and calling [get_text] on
    each one yields, page by page, and what [close] does. *)
Record document : Type := {
  pages : list (outcome str);
  close : outcome unit
}.

Inductive embeddings : Type := Embeddings (handle : nat).
Inductive vectorstore : Type := Vectorstore (handle : nat).
Inductive llm : Type := Llm (handle : nat).
Inductive chain : Type := Chain (handle : nat).

(** The keyword arguments of [ChatGroq(...)]. *)
Record ChatGroq_args : Type := {
  model_name : str;
  temperature : Q;
  request_timeout : Z
}.

(** [PromptTemplate(input_variables=..., template=...)] *)
Record PromptTemplate : Type := {
  input_variables : list str;
  template_text : str
}.

(** A response of the chain: a dict from keys to strings. *)
Definition dict : Type := list (str * str).

Definition str_eqb (a b : str) : bool :=
  if list_eq_dec N.eq_dec a b then true else false.

Fixpoint dict_get (d : dict) (key : str) : option str :=
  match d with
  | [] => None
  | (k, v) :: rest => if str_eqb k key then Some v else dict_get rest key
  end.

Record world : Type := {
  (** lines 110-112: create the temporary file, write the upload, take its name *)
  NamedTemporaryFile_write : list N -> outcome str;
  fitz_open : str -> outcome document;
  HuggingFaceEmbeddings : str -> outcome embeddings;
  FAISS_from_texts : list str -> embeddings -> outcome vectorstore;
  ChatGroq : ChatGroq_args -> outcome llm;
  RetrievalQA_from_chain_type : llm -> vectorstore -> PromptTemplate -> outcome chain;
  (** [qa_chain.invoke({"query": q})] *)
  invoke : chain -> str -> outcome dict
}.

(** ** What a run does: the calls on the page and to the libraries *)

Inductive st_call : Type :=
| st_error (body : str)
| st_success (body : str)
| st_spinner (text : str)
| st_subheader (body : str)
| st_write (body : str)
| st_download_button (label data file_name mime : str).

Inductive ext_call : Type :=
| call_fitz_open (path : str)
| call_split_text (text : str)
| call_HuggingFaceEmbeddings (model : str)
| call_FAISS_from_texts (texts : list str)
| call_ChatGroq (args : ChatGroq_args)
| call_RetrievalQA_from_chain_type (prompt : PromptTemplate)
| call_invoke (query : str).

Inductive event : Type :=
| UI (c : st_call)
| Ext (c : ext_call).

(** A computation logs events and returns or raises. *)
Definition M (A : Type) : Type := (list event * outcome A)%type.

Definition ret {A : Type} (a : A) : M A := ([], Returns a).

Definition bind {A B : Type} (m : M A) (k : A -> M B) : M B :=
  match m with
  | (l, Returns a) => let (l', r) := k a in (l ++ l', r)
  | (l, Raises e) => (l, Raises e)
  end.

Definition raise {A : Type} (e : exn) : M A := ([], Raises e).

(** [try: m except Exception as e: handler e] *)
Definition try_except {A : Type} (m : M A) (handler : exn -> M A) : M A :=
  match m with
  | (l, Returns a) => (l, Returns a)
  | (l, Raises e) => let (l', r) := handler e in (l ++ l', r)
  end.

Definition st (c : st_call) : M unit := ([UI c], Returns tt).

(** A library call: logged, then its outcome. *)
Definition ext {A : Type} (c : ext_call) (o : outcome A) : M A := ([Ext c], o).

Declare Scope py_scope.
Delimit Scope py_scope with py.
Notation "x <- m ;; k" := (bind m (fun x => k))
  (at level 61, m at next level, right associativity) : py_scope.
Notation "m ;;; k" := (bind m (fun _ => k))
  (at level 61, right associativity) : py_scope.

(** ** [app.py]: extracting the text *)

(** [for page in doc: text += page.get_text()], from the text so far. *)
Fixpoint read_pages (pages : list (outcome str)) (text : str) : str * outcome unit :=
  match pages with
  | [] => (text, Returns tt)
  | Returns t :: rest => read_pages rest (text ++ t)
  | Raises e :: _ => (text, Raises e)
  end.

(** The body of the [try]: the value of [text] when the block is left,
    and whether it was left by an exception. *)
Definition get_pdf_text_try (w : world) (pdf_file_path : str) (text : str)
  : str * outcome unit :=
  match fitz_open w pdf_file_path with
  | Raises e => (text, Raises e)
  | Returns doc =>
      match read_pages (pages doc) text with
      | (text', Returns _) => (text', close doc)
      | (text', Raises e) => (text', Raises e)
      end
  end.

Definition get_pdf_text (w : world) (pdf_file_path : str) : M str :=
  let text := [] in
  let (text', r) := get_pdf_text_try w pdf_file_path text in
  (try_except (ext (call_fitz_open pdf_file_path) r)
     (fun e => st (st_error (py "Error extracting text from PDF: " ++ exn_msg e))) ;;;
   ret text')%py.

(** ** [app.py]: the vector store *)

Definition embedding_model : str := py "sentence-transformers/all-MiniLM-L6-v2".

Definition get_vectorstore (w : world) (chunks : list str) : M (option vectorstore) :=
  try_except
    (embeddings <- ext (call_HuggingFaceEmbeddings embedding_model)
                       (HuggingFaceEmbeddings w embedding_model) ;;
     vs <- ext (call_FAISS_from_texts chunks) (FAISS_from_texts w chunks embeddings) ;;
     ret (Some vs))%py
    (fun e =>
       (st (st_error
              (py "Failed to load embedding model. Please check your HuggingFace token and internet connection."
               ++ [LF] ++ py "Error: " ++ exn_msg e)) ;;;
        ret None)%py).

(** ** [app.py]: the prompt *)

Definition template : str :=
  [LF] ++
  py "You are an expert science communicator. Based on the content of the research paper below, write a blog-style explainer suitable for a non-expert audience." ++ [LF] ++
  [LF] ++
  py "Follow this format:" ++ [LF] ++
  [LF] ++
  py "Title: (Make it catchy and easy to understand)" ++ [LF] ++
  [LF] ++
  py "1. The Problem" ++ [LF] ++
  py "- What problem does the paper address?" ++ [LF] ++
  py "- Why is it important?" ++ [LF] ++
  [LF] ++
  py "2. The Approach" ++ [LF] ++
  py "- What method or idea is proposed?" ++ [LF] ++
  py "- How does it work in simple terms?" ++ [LF] ++
  [LF] ++
  py "3. Key Takeaways" ++ [LF] ++
  py "- What are the key findings?" ++ [LF] ++
  py "- How can this be useful?" ++ [LF] ++
  [LF] ++
  py "Write in a conversational tone, use analogies, and avoid technical jargon. The goal is to help general readers understand and appreciate the research." ++ [LF] ++
  [LF] ++
  py "Context: {context}" ++ [LF] ++
  py "Research Paper Text: {question}" ++ [LF] ++
  [LF] ++
  py "Generate a blog-style summary below:" ++ [LF].

Definition prompt : PromptTemplate :=
  {| input_variables := [py "context"; py "question"];
     template_text := template |}.

(** ** [app.py]: the upload handler *)

(** The arguments of line 131-135; the literal 0.7 is kept as a fraction. *)
Definition llm_args : ChatGroq_args :=
  {| model_name := py "meta-llama/llama-4-scout-17b-16e-instruct";
     temperature := 7 # 10;
     request_timeout := 30 |}.

(** The pictographs of the messages, as code points. *)
Definition magnifier : char := 128269%N.
Definition link_sign : char := 128279%N.
Definition robot : char := 129302%N.
Definition check_mark : char := 9989%N.
Definition memo : char := 128221%N.
Definition inbox : char := 128229%N.

Definition KeyError (key : str) : exn := Exception (py "'" ++ key ++ py "'").

(** [response["result"]] *)
Definition getitem (d : dict) (key : str) : M str :=
  match dict_get d key with
  | Some v => ret v
  | None => raise (KeyError key)
  end.

(** Truth value of a [str] or [None]. *)
Definition truthy (v : option str) : bool :=
  match v with
  | Some (_ :: _) => true
  | _ => false
  end.

(** Lines 130-146: the [try] that builds the client and the chain and
    asks for the summary, with its handler. *)
Definition summarize (w : world) (vs : vectorstore) (raw_text : str) : M (option str) :=
  try_except
    (llm <- ext (call_ChatGroq llm_args) (ChatGroq w llm_args) ;;
     qa_chain <- ext (call_RetrievalQA_from_chain_type prompt)
                     (RetrievalQA_from_chain_type w llm vs prompt) ;;
     response <- ext (call_invoke raw_text) (invoke w qa_chain raw_text) ;;
     blog_summary <- getitem response (py "result") ;;
     ret (Some blog_summary))%py
    (fun e =>
       (st (st_error (py "Error generating summary: " ++ exn_msg e)) ;;;
        ret None)%py).

(** Lines 148-151. *)
Definition show_summary (blog_summary : option str) : M unit :=
  if truthy blog_summary then
    match blog_summary with
    | Some s =>
        (st (st_subheader (memo :: py " Blog Summary")) ;;;
         st (st_write s) ;;;
         st (st_download_button (inbox :: py " Download Summary") s
               (py "summary.txt") (py "text/plain")))%py
    | None => ret tt
    end
  else ret tt.

(** Lines 130-151: summarize, then show. *)
Definition summary_block (w : world) (vs : vectorstore) (raw_text : str) : M unit :=
  (blog_summary <- summarize w vs raw_text ;;
   show_summary blog_summary)%py.

(** Lines 109-151: the body of the outer [try]. *)
Definition process (w : world) (upload : list N) : M unit :=
  (tmp_path <- ([], NamedTemporaryFile_write w upload) ;;
   st (st_spinner (magnifier :: py " Extracting text from PDF...")) ;;;
   raw_text <- get_pdf_text w tmp_path ;;
   match raw_text with
   | [] => st (st_error (py "No text could be extracted from the PDF."))
   | _ :: _ =>
       st (st_success (check_mark :: py " Extracted " ++ str_of_nat (length raw_text)
                         ++ py " characters from the PDF.")) ;;;
       st (st_spinner (link_sign :: py " Splitting and indexing text...")) ;;;
       text_chunks <- ext (call_split_text raw_text) (get_text_chunks raw_text) ;;
       vectorstore <- get_vectorstore w text_chunks ;;
       match vectorstore with
       | None => ret tt
       | Some vs =>
           st (st_success (check_mark :: py " Vectorstore created successfully.")) ;;;
           st (st_spinner (robot :: py " Generating blog-style summary...")) ;;;
           summary_block w vs raw_text
       end
   end)%py.

(** Lines 108-153: one run of the script after the page is drawn;
    [pdf_file] is [None] when nothing was uploaded. *)
Definition run (w : world) (pdf_file : option (list N)) : M unit :=
  match pdf_file with
  | None => ret tt
  | Some upload =>
      try_except (process w upload)
        (fun e => st (st_error (py "An error occurred: " ++ exn_msg e)))
  end.

(** ** Notions used to state the properties of the chunker *)

(** The non-empty lines of a text, as the splitter sees them. *)
Definition segments (text : str) : list str :=
  CharacterTextSplitter._split_text_with_regex text [LF].

(** The lines that make up one chunk: those carried over from the
    previous chunk, then the new ones. *)
Definition window : Type := (list str * list str)%type.

Definition window_lines (w : window) : list str := fst w ++ snd w.

Definition chunks_of (separator : str) (ws : list window) : list str :=
  flat_map
    (fun w => match CharacterTextSplitter._join_docs (window_lines w) separator with
              | Some c => [c]
              | None => []
              end) ws.

Definition is_suffix {A : Type} (s l : list A) : Prop := exists p, l = p ++ s.

(** Each window starts with a suffix of the lines of the window before
    it, and that carried part, joined, is no longer than [overlap]. *)
Fixpoint chained (overlap : Z) (separator : str) (prev : list str) (ws : list window)
  : Prop :=
  match ws with
  | [] => True
  | w :: ws' =>
      is_suffix (fst w) prev
      /\ len (join separator (fst w)) <= overlap
      /\ chained overlap separator (window_lines w) ws'
  end.

(** Dropping some leading characters (an overlap) from each chunk and
    concatenating what is left gives [text]. *)
Definition reconstructs (chunks : list str) (text : str) : Prop :=
  exists ks : list nat,
    length ks = length chunks
    /\ concat (map (fun p => skipn (fst p) (snd p)) (combine ks chunks)) = text.

(** The lines of the last window, [prev] when there is none. *)
Fixpoint last_lines (prev : list str) (ws : list window) : list str :=
  match ws with
  | [] => prev
  | w :: ws' => last_lines (window_lines w) ws'
  end.

(** The loop invariant of [_merge_splits]: [ws] lists the windows of the
    chunks emitted so far and, last, the window under construction. *)
Definition merge_inv (self : CharacterTextSplitter.t) (separator : str)
  (st : CharacterTextSplitter.merge_state) (ws : list window) : Prop :=
  exists ws0 c f,
    ws = ws0 ++ [(c, f)]
    /\ CharacterTextSplitter.docs st = chunks_of separator ws0
    /\ CharacterTextSplitter.current_doc st = c ++ f
    /\ CharacterTextSplitter.total st = len (join separator (c ++ f))
    /\ chained (CharacterTextSplitter._chunk_overlap self) separator [] ws.

(** The invariant behind the size bound. *)
Definition size_inv (self : CharacterTextSplitter.t) (separator : str)
  (st : CharacterTextSplitter.merge_state) : Prop :=
  CharacterTextSplitter.total st
    = len (join separator (CharacterTextSplitter.current_doc st))
  /\ CharacterTextSplitter.total st <= CharacterTextSplitter._chunk_size self
  /\ Forall (fun s => 0 < len s) (CharacterTextSplitter.current_doc st)
  /\ Forall (fun c => len c <= CharacterTextSplitter._chunk_size self)
       (CharacterTextSplitter.docs st).

(** Which events are which. *)
Definition is_error (ev : event) : bool :=
  match ev with UI (st_error _) => true | _ => false end.

Definition is_summary_shown (ev : event) : bool :=
  match ev with
  | UI (st_subheader _) | UI (st_write _) | UI (st_download_button _ _ _ _) => true
  | _ => false
  end.

Definition is_chunking_call (ev : event) : bool :=
  match ev with Ext (call_split_text _) => true | _ => false end.

Definition is_indexing_call (ev : event) : bool :=
  match ev with
  | Ext (call_HuggingFaceEmbeddings _) | Ext (call_FAISS_from_texts _) => true
  | _ => false
  end.

Definition is_summarization_call (ev : event) : bool :=
  match ev with
  | Ext (call_ChatGroq _) | Ext (call_RetrievalQA_from_chain_type _)
  | Ext (call_invoke _) => true
  | _ => false
  end.

Definition is_query (ev : event) : bool :=
  match ev with Ext (call_invoke _) => true | _ => false end.

Definition none_of (p : event -> bool) (trace : list event) : Prop :=
  filter p trace = [].

(** All the lines of a text, empty ones included. *)
Definition lines (text : str) : list str :=
  CharacterTextSplitter.re_split [LF] 0 [] text.

(** The run got as far as the summarization step (line 129). *)
Definition reaches_summarization (trace : list event) : Prop :=
  In (UI (st_spinner (robot :: py " Generating blog-style summary..."))) trace.

(** The library calls of the summarization step on [raw_text]: the client,
    then the chain if the client was built, then the query if the chain was. *)
Definition summarization_calls (w : world) (vs : vectorstore) (raw_text : str)
  : list event :=
  Ext (call_ChatGroq llm_args) ::
  match ChatGroq w llm_args with
  | Raises _ => []
  | Returns l =>
      Ext (call_RetrievalQA_from_chain_type prompt) ::
      match RetrievalQA_from_chain_type w l vs prompt with
      | Raises _ => []
      | Returns _ => [Ext (call_invoke raw_text)]
      end
  end.

(** The summarization step returned a text rather than [None]. *)
Definition summarization_succeeds (w : world) (vs : vectorstore) (raw_text : str)
  : Prop :=
  exists s, snd (summarize w vs raw_text) = Returns (Some s).

(** What the page shows for a summary [s]. *)
Definition summary_display (s : str) : list event :=
  [UI (st_subheader (memo :: py " Blog Summary"));
   UI (st_write s);
   UI (st_download_button (inbox :: py " Download Summary") s
         (py "summary.txt") (py "text/plain"))].

(** A summary is displayed and offered for download. *)
Definition summary_offered (trace : list event) : Prop :=
  exists s, incl (summary_display s) trace.

(** [s] is a prefix of [l]. *)
Definition is_prefix {A : Type} (s l : list A) : Prop := exists q, l = s ++ q.

(** ** Sample inputs *)

(** A splitter with a small size and overlap, to watch the loop at work. *)
Definition small_splitter : CharacterTextSplitter.t :=
  {| CharacterTextSplitter._separator := [LF];
     CharacterTextSplitter._chunk_size := 10;
     CharacterTextSplitter._chunk_overlap := 3 |}.

(** The text of [s] with every vertical bar standing for a newline. *)
Definition with_newlines (s : string) : str :=
  map (fun c => if (c =? 124)%N then LF else c) (py s).

(** ** Sample worlds *)

(** A world in which the upload is stored, and the PDF, the embedding
    model, the chat client and the query behave as given. *)
Definition world_of (doc : outcome document) (hf : outcome embeddings)
  (groq : outcome llm) (response : outcome dict) : world :=
  {| NamedTemporaryFile_write := fun _ => Returns (py "/tmp/tmpa1b2c3.pdf");
     fitz_open := fun _ => doc;
     HuggingFaceEmbeddings := fun _ => hf;
     FAISS_from_texts := fun _ _ => Returns (Vectorstore 0);
     ChatGroq := fun _ => groq;
     RetrievalQA_from_chain_type := fun _ _ _ => Returns (Chain 0);
     invoke := fun _ _ => response |}.

Definition one_page (text : str) : outcome document :=
  Returns {| pages := [Returns text]; close := Returns tt |}.

(** One page reading "Hello world.", every service up. *)
Definition hello_world : world :=
  world_of (one_page (py "Hello world.")) (Returns (Embeddings 0)) (Returns (Llm 0))
    (Returns [(py "result", py "A summary.")]).

(** A PDF that opens, whose first page reads "A" and whose second page
    cannot be parsed. *)
Definition torn_pdf_world : world :=
  world_of
    (Returns {| pages := [Returns (py "A"); Raises (Exception (py "cannot load page"))];
                close := Returns tt |})
    (Returns (Embeddings 0)) (Returns (Llm 0))
    (Returns [(py "result", py "A summary.")]).

(** A PDF without pages. *)
Definition no_pages_world : world :=
  world_of (Returns {| pages := []; close := Returns tt |})
    (Returns (Embeddings 0)) (Returns (Llm 0))
    (Returns [(py "result", py "A summary.")]).

(** The embedding model cannot be loaded. *)
Definition no_embeddings_world : world :=
  world_of (one_page (py "Hello world."))
    (Raises (Exception (py "401 Unauthorized"))) (Returns (Llm 0))
    (Returns [(py "result", py "A summary.")]).

(** The chat client cannot be built (no API key). *)
Definition no_key_world : world :=
  world_of (one_page (py "Hello world.")) (Returns (Embeddings 0))
    (Raises (Exception (py "The api_key client option must be set")))
    (Returns [(py "result", py "A summary.")]).

(** The model answers with an empty text. *)
Definition empty_answer_world : world :=
  world_of (one_page (py "Hello world.")) (Returns (Embeddings 0)) (Returns (Llm 0))
    (Returns [(py "result", [])]).

(** ** [app.py]: the credentials (lines 19-30)

    The code that runs when the script is loaded, after [load_dotenv()]:
    it reads the two tokens from the environment, warns when one is not
    set, logs in to the model hub with the first and writes the second
    back into the environment.  Nothing catches what [login] raises. *)

(** [d[key] = value] on a dict: in place when the key is there, a new
    last entry otherwise. *)
Fixpoint dict_set (d : dict) (key value : str) : dict :=
  match d with
  | [] => [(key, value)]
  | (k, v) :: rest =>
      if str_eqb k key then (k, value) :: rest
      else (k, v) :: dict_set rest key value
  end.

Inductive startup_event : Type :=
| st_warning (body : str)
| call_login (token : str).

Definition startup (login : str -> outcome unit) (environ : dict)
  : list startup_event * outcome dict :=
  let HUGGINGFACE_TOKEN := dict_get environ (py "HUGGINGFACE_TOKEN") in
  let GROQ_API_KEY := dict_get environ (py "GROQ_API_KEY") in
  let warned :=
    if negb (truthy HUGGINGFACE_TOKEN) || negb (truthy GROQ_API_KEY)
    then [st_warning
            (py "Please set the HUGGINGFACE_TOKEN and GROQ_API_KEY environment variables.")]
    else [] in
  let logged_in :=
    match HUGGINGFACE_TOKEN with
    | Some token =>
        if truthy HUGGINGFACE_TOKEN then ([call_login token], login token)
        else ([], Returns tt)
    | None => ([], Returns tt)
    end in
  match logged_in with
  | (l, Raises e) => (warned ++ l, Raises e)
  | (l, Returns _) =>
      (warned ++ l,
       Returns
         match GROQ_API_KEY with
         | Some key =>
             if truthy GROQ_API_KEY then dict_set environ (py "GROQ_API_KEY") key
             else environ
         | None => environ
         end)
  end.

(** ** Notions used to state further properties *)

Definition is_ext (ev : event) : bool :=
  match ev with Ext _ => true | UI _ => false end.

(** The library calls of a complete run, in the order of the script. *)
Definition pipeline_calls (tmp_path raw_text : str) (chunks : list str) : list event :=
  [Ext (call_fitz_open tmp_path);
   Ext (call_split_text raw_text);
   Ext (call_HuggingFaceEmbeddings embedding_model);
   Ext (call_FAISS_from_texts chunks);
   Ext (call_ChatGroq llm_args);
   Ext (call_RetrievalQA_from_chain_type prompt);
   Ext (call_invoke raw_text)].

(** The message of the outer handler (line 153). *)
Definition is_generic_error (ev : event) : Prop :=
  exists e, ev = UI (st_error (py "An error occurred: " ++ exn_msg e)).

Definition all_space (s : str) : Prop := Forall (fun c => isspace c = true) s.

(** A token that is absent or empty. *)
Definition unset (environ : dict) (key : str) : Prop :=
  truthy (dict_get environ key) = false.

(** ** Further sample worlds *)

(** The PDF cannot be opened. *)
Definition unreadable_world : world :=
  world_of (Raises (Exception (py "cannot open broken document")))
    (Returns (Embeddings 0)) (Returns (Llm 0))
    (Returns [(py "result", py "A summary.")]).

(** The PDF is read to the end, then closing it fails. *)
Definition close_fails_world : world :=
  world_of
    (Returns {| pages := [Returns (py "A"); Returns (py "B")];
                close := Raises (Exception (py "document closed")) |})
    (Returns (Embeddings 0)) (Returns (Llm 0))
    (Returns [(py "result", py "A summary.")]).

(** The upload cannot be stored. *)
Definition disk_full_world : world :=
  {| NamedTemporaryFile_write := fun _ => Raises (Exception (py "No space left on device"));
     fitz_open := fun _ => one_page (py "Hello world.");
     HuggingFaceEmbeddings := fun _ => Returns (Embeddings 0);
     FAISS_from_texts := fun _ _ => Returns (Vectorstore 0);
     ChatGroq := fun _ => Returns (Llm 0);
     RetrievalQA_from_chain_type := fun _ _ _ => Returns (Chain 0);
     invoke := fun _ _ => Returns [(py "result", py "A summary.")] |}.

(** The index cannot be built although the embedding model loads. *)
Definition no_index_world : world :=
  {| NamedTemporaryFile_write := fun _ => Returns (py "/tmp/tmpa1b2c3.pdf");
     fitz_open := fun _ => one_page (py "   ");
     HuggingFaceEmbeddings := fun _ => Returns (Embeddings 0);
     FAISS_from_texts := fun _ _ => Raises (Exception (py "list index out of range"));
     ChatGroq := fun _ => Returns (Llm 0);
     RetrievalQA_from_chain_type := fun _ _ _ => Returns (Chain 0);
     invoke := fun _ _ => Returns [(py "result", py "A summary.")] |}.

(** The model's response has no "result" entry. *)
Definition malformed_answer_world : world :=
  world_of (one_page (py "Hello world.")) (Returns (Embeddings 0)) (Returns (Llm 0))
    (Returns [(py "query", py "Hello world.")]).

(** An environment with both tokens, and one with neither. *)
Definition full_environ : dict :=
  [(py "HOME", py "/root"); (py "HUGGINGFACE_TOKEN", py "hf_abc");
   (py "GROQ_API_KEY", py "gsk_xyz")].

Definition bare_environ : dict := [(py "HOME", py "/root")].

(** ** Notions independent of the splitter's own functions *)

(** [s] is a contiguous part of [l]. *)
Definition is_infix {A : Type} (s l : list A) : Prop :=
  exists pre post, l = pre ++ s ++ post.

Definition newline_free (s : str) : Prop := ~ In LF s.

Definition nonempty (s : str) : bool := negb (Nat.eqb (length s) 0).

(** The chunks of a list of windows: the lines of each window joined by
    newlines and stripped, those that come out empty left out. *)
Definition chunk_texts (ws : list window) : list str :=
  filter nonempty (map (fun w => strip (join [LF] (window_lines w))) ws).

(** The invariant behind the bound on each chunk: what is being built
    either fits in the chunk size or is one single piece of [all]. *)
Definition long_inv (self : CharacterTextSplitter.t) (separator : str)
  (all : list str) (st : CharacterTextSplitter.merge_state) : Prop :=
  CharacterTextSplitter.total st
    = len (join separator (CharacterTextSplitter.current_doc st))
  /\ Forall (fun s => 0 < len s) (CharacterTextSplitter.current_doc st)
  /\ (CharacterTextSplitter.total st <= CharacterTextSplitter._chunk_size self
      \/ exists d, CharacterTextSplitter.current_doc st = [d] /\ In d all)
  /\ Forall (fun c => len c <= CharacterTextSplitter._chunk_size self
                      \/ exists d, In d all /\ c = strip d)
       (CharacterTextSplitter.docs st).

(** Thirty lines of ninety-nine letters each. *)
Definition thirty_lines : str := join [LF] (repeat (repeat 97%N 99) 30).

(** The second page of the PDF cannot be parsed, and the model answers
    with an empty text. *)
Definition torn_pdf_empty_answer_world : world :=
  world_of
    (Returns {| pages := [Returns (py "A"); Raises (Exception (py "cannot load page"))];
                close := Returns tt |})
    (Returns (Embeddings 0)) (Returns (Llm 0))
    (Returns [(py "result", [])]).

(** * Properties *)

(** ** Lengths of joined and stripped strings *)

Lemma len_nonneg {A : Type} (l : list A) : 0 <= len l.
Proof. unfold len. lia. Qed.

Lemma len_app {A : Type} (l1 l2 : list A) : len (l1 ++ l2) = len l1 + len l2.
Proof. unfold len. rewrite length_app. lia. Qed.

Lemma len_cons {A : Type} (a : A) (l : list A) : len (a :: l) = 1 + len l.
Proof. unfold len. cbn [length]. lia. Qed.

Lemma len_nil {A : Type} : len (@nil A) = 0.
Proof. reflexivity. Qed.

(** Normalise lengths and decide the comparisons of the loop. *)
Ltac lens :=
  unfold len in *;
  rewrite ?length_app in *;
  cbn [length] in *;
  repeat match goal with
         | |- context [?a >? ?b] => destruct (Z.gtb_spec a b)
         | H : context [?a >? ?b] |- _ => destruct (Z.gtb_spec a b)
         end;
  cbn [orb andb negb] in *;
  try lia.

Lemma lstrip_length (s : str) : (length (lstrip s) <= length s)%nat.
Proof.
  induction s as [|c s IH]; cbn [lstrip]; [lia|].
  destruct (isspace c); cbn [length]; lia.
Qed.

Lemma strip_length (s : str) : (length (strip s) <= length s)%nat.
Proof.
  unfold strip, rstrip. rewrite length_rev.
  etransitivity; [apply lstrip_length|]. rewrite length_rev. apply lstrip_length.
Qed.

Lemma len_strip (s : str) : len (strip s) <= len s.
Proof. unfold len. pose proof (strip_length s). lia. Qed.

Section JoinFacts.
Variable separator : str.

Lemma join_cons (d : str) (l : list str) :
  len (join separator (d :: l))
  = len d + (if len (d :: l) >? 1 then len separator else 0) + len (join separator l).
Proof.
  destruct l as [|d' l].
  - cbn [join]. lens.
  - change (join separator (d :: d' :: l))
      with (d ++ separator ++ join separator (d' :: l)).
    lens.
Qed.

Lemma join_snoc (l : list str) (d : str) :
  len (join separator (l ++ [d]))
  = len (join separator l) + len d
    + (if len (l ++ [d]) >? 1 then len separator else 0).
Proof.
  induction l as [|a l IH].
  - cbn [app join]. lens.
  - change ((a :: l) ++ [d]) with (a :: (l ++ [d])).
    rewrite !join_cons, IH. lens.
Qed.
End JoinFacts.

(** ** The merging loop of the splitter *)

Lemma is_suffix_refl {A : Type} (l : list A) : is_suffix l l.
Proof. exists []. reflexivity. Qed.

Lemma is_suffix_cons {A : Type} (a : A) (s l : list A) :
  is_suffix s l -> is_suffix s (a :: l).
Proof. intros [p ->]. exists (a :: p). reflexivity. Qed.

Lemma is_suffix_nil {A : Type} (s : list A) : is_suffix s [] -> s = [].
Proof. intros [p H]. symmetry in H. apply app_eq_nil in H. tauto. Qed.

Lemma chained_app overlap separator (ws1 ws2 : list window) :
  forall prev,
    chained overlap separator prev (ws1 ++ ws2)
    <-> chained overlap separator prev ws1
        /\ chained overlap separator (last_lines prev ws1) ws2.
Proof.
  induction ws1 as [|w ws1 IH]; intros prev; cbn [app chained last_lines].
  - tauto.
  - rewrite IH. tauto.
Qed.

Lemma last_lines_snoc prev (ws : list window) (w : window) :
  last_lines prev (ws ++ [w]) = window_lines w.
Proof.
  revert prev. induction ws as [|w0 ws IH]; intros prev; cbn [app last_lines].
  - reflexivity.
  - apply IH.
Qed.

Lemma chunks_of_app separator (ws1 ws2 : list window) :
  chunks_of separator (ws1 ++ ws2) = chunks_of separator ws1 ++ chunks_of separator ws2.
Proof. unfold chunks_of. apply flat_map_app. Qed.

Lemma chunks_of_snoc separator (ws : list window) (c f : list str) :
  CharacterTextSplitter.append_doc (chunks_of separator ws)
    (CharacterTextSplitter._join_docs (c ++ f) separator)
  = chunks_of separator (ws ++ [(c, f)]).
Proof.
  rewrite chunks_of_app. unfold chunks_of at 3.
  cbn [flat_map]. unfold window_lines. cbn [fst snd].
  rewrite app_nil_r.
  destruct (CharacterTextSplitter._join_docs (c ++ f) separator); cbn.
  - reflexivity.
  - now rewrite app_nil_r.
Qed.

Lemma fresh_snoc (ws : list window) (w : window) :
  concat (map snd (ws ++ [w])) = concat (map snd ws) ++ snd w.
Proof. rewrite map_app, concat_app. cbn. now rewrite app_nil_r. Qed.

Section MergeFacts.
Import CharacterTextSplitter.
Variable self : t.
Variable separator : str.
Hypothesis overlap_nonneg : 0 <= _chunk_overlap self.

Lemma pop_while_eq _len cur tot :
  pop_while self separator _len cur tot
  = if keep_popping self separator _len cur tot then
      match cur with
      | [] => Raises IndexError
      | d0 :: rest =>
          pop_while self separator _len rest
            (tot - (len d0 + (if len cur >? 1 then separator_len separator else 0)))
      end
    else Returns (cur, tot).
Proof. destruct cur; reflexivity. Qed.

(** The [while] loop never indexes an empty list; it leaves a suffix of
    [current_doc] that is within the overlap and, unless nothing is
    left, leaves room for the next piece. *)
Lemma pop_while_spec _len cur :
  exists cur',
    pop_while self separator _len cur (len (join separator cur))
      = Returns (cur', len (join separator cur'))
    /\ is_suffix cur' cur
    /\ len (join separator cur') <= _chunk_overlap self
    /\ (len (join separator cur') + _len
          + (if len cur' >? 0 then len separator else 0) <= _chunk_size self
        \/ len (join separator cur') <= 0).
Proof.
  induction cur as [|d0 rest IH]; rewrite pop_while_eq.
  - exists []. unfold keep_popping. cbn [join]. 
    split; [|split; [apply is_suffix_refl|]]; lens; reflexivity.
  - destruct (keep_popping self separator _len (d0 :: rest)
                (len (join separator (d0 :: rest)))) eqn:K.
    + destruct IH as (cur' & E & S & B & R).
      exists cur'. split; [|split; [now apply is_suffix_cons|tauto]].
      rewrite <- E. f_equal. rewrite join_cons. unfold separator_len. lia.
    + exists (d0 :: rest). split; [reflexivity|].
      split; [apply is_suffix_refl|].
      unfold keep_popping, separator_len in K.
      apply orb_false_iff in K. destruct K as [K1 K2].
      apply andb_false_iff in K2.
      split.
      * destruct (Z.gtb_spec (len (join separator (d0 :: rest))) (_chunk_overlap self));
          [discriminate|lia].
      * destruct K2 as [K2|K2]; [left|right].
        -- destruct (Z.gtb_spec
                       (len (join separator (d0 :: rest)) + _len
                        + (if len (d0 :: rest) >? 0 then len separator else 0))
                       (_chunk_size self)); [discriminate|lia].
        -- destruct (Z.gtb_spec (len (join separator (d0 :: rest))) 0);
             [discriminate|lia].
Qed.

Lemma merge_inv_init :
  merge_inv self separator {| docs := []; current_doc := []; total := 0 |} [([], [])].
Proof.
  exists [], [], []. cbn.
  repeat split; try reflexivity; try lia. apply is_suffix_refl.
Qed.

(** One iteration keeps the invariant and adds the piece to the fresh
    part of the last window. *)
Lemma merge_step_inv st ws d :
  merge_inv self separator st ws ->
  exists st' ws',
    merge_step self separator st d = Returns st'
    /\ merge_inv self separator st' ws'
    /\ concat (map snd ws') = concat (map snd ws) ++ [d].
Proof.
  intros (ws0 & c & f & -> & Hd & Hc & Ht & Hch).
  unfold merge_step. rewrite Hc, Ht.
  destruct (len (join separator (c ++ f)) + len d
            + (if len (c ++ f) >? 0 then separator_len separator else 0)
            >? _chunk_size self) eqn:Big;
    [destruct (len (c ++ f) >? 0) eqn:NE|].
  - (* the current window is emitted and its head dropped *)
    destruct (pop_while_spec (len d) (c ++ f)) as (cur' & E & S & B & _).
    rewrite E. cbn [docs current_doc total].
    eexists. exists ((ws0 ++ [(c, f)]) ++ [(cur', [d])]).
    split; [reflexivity|]. split.
    + exists (ws0 ++ [(c, f)]), cur', [d]. cbn [docs current_doc total].
      split; [reflexivity|]. split; [rewrite Hd; apply chunks_of_snoc|].
      split; [reflexivity|]. split.
      * rewrite join_snoc. unfold separator_len. lia.
      * apply chained_app. split; [assumption|].
        rewrite last_lines_snoc. cbn. tauto.
    + apply fresh_snoc.
  - (* nothing to emit: the piece alone is too long *)
    eexists. exists (ws0 ++ [(c, f ++ [d])]).
    split; [reflexivity|]. split.
    + exists ws0, c, (f ++ [d]). cbn [docs current_doc total].
      rewrite Hc, Ht.
      split; [reflexivity|]. split; [assumption|].
      split; [now rewrite <- app_assoc|]. split.
      * rewrite (app_assoc c f [d]), join_snoc. unfold separator_len. lia.
      * apply chained_app in Hch. apply chained_app. cbn in *. tauto.
    + rewrite !fresh_snoc. cbn [snd]. now rewrite app_assoc.
  - (* the piece fits *)
    eexists. exists (ws0 ++ [(c, f ++ [d])]).
    split; [reflexivity|]. split.
    + exists ws0, c, (f ++ [d]). cbn [docs current_doc total].
      rewrite Hc, Ht.
      split; [reflexivity|]. split; [assumption|].
      split; [now rewrite <- app_assoc|]. split.
      * rewrite (app_assoc c f [d]), join_snoc. unfold separator_len. lia.
      * apply chained_app in Hch. apply chained_app. cbn in *. tauto.
    + rewrite !fresh_snoc. cbn [snd]. now rewrite app_assoc.
Qed.

Lemma merge_loop_inv splits :
  forall st ws,
    merge_inv self separator st ws ->
    exists st' ws',
      merge_loop self separator splits st = Returns st'
      /\ merge_inv self separator st' ws'
      /\ concat (map snd ws') = concat (map snd ws) ++ splits.
Proof.
  induction splits as [|d rest IH]; intros st ws I; cbn [merge_loop].
  - exists st, ws. rewrite app_nil_r. auto.
  - destruct (merge_step_inv st ws d I) as (st1 & ws1 & -> & I1 & F1).
    destruct (IH st1 ws1 I1) as (st2 & ws2 & E2 & I2 & F2).
    exists st2, ws2. split; [assumption|]. split; [assumption|].
    rewrite F2, F1, <- app_assoc. reflexivity.
Qed.

(** [_merge_splits] returns, and its chunks are the joined windows of a
    chain whose fresh parts are exactly the pieces, in order. *)
Lemma merge_splits_windows splits :
  exists ws,
    _merge_splits self separator splits = Returns (chunks_of separator ws)
    /\ concat (map snd ws) = splits
    /\ chained (_chunk_overlap self) separator [] ws.
Proof.
  destruct (merge_loop_inv splits _ _ merge_inv_init)
    as (st & ws & E & (ws0 & c & f & -> & Hd & Hc & Ht & Hch) & F).
  exists (ws0 ++ [(c, f)]). unfold _merge_splits. rewrite E, Hd, Hc.
  split; [now rewrite chunks_of_snoc|]. split; [exact F|exact Hch].
Qed.
End MergeFacts.

Section SizeFacts.
Import CharacterTextSplitter.
Variable self : t.
Variable separator : str.
Hypothesis overlap_nonneg : 0 <= _chunk_overlap self.
Hypothesis size_nonneg : 0 <= _chunk_size self.

Lemma join_docs_len (l : list str) (c : str) :
  _join_docs l separator = Some c -> len c <= len (join separator l).
Proof.
  unfold _join_docs. pose proof (len_strip (join separator l)) as L.
  destruct (strip (join separator l)); [discriminate|].
  intros [= <-]. exact L.
Qed.

Lemma join_nonempty (l : list str) :
  Forall (fun s => 0 < len s) l -> len (join separator l) <= 0 -> l = [].
Proof.
  destruct l as [|d l]; [reflexivity|].
  intros F. inversion F; subst. rewrite join_cons.
  pose proof (len_nonneg (join separator l)). pose proof (len_nonneg separator).
  destruct (len (d :: l) >? 1); lia.
Qed.

Lemma append_doc_size (ds : list str) (l : list str) :
  Forall (fun c => len c <= _chunk_size self) ds ->
  len (join separator l) <= _chunk_size self ->
  Forall (fun c => len c <= _chunk_size self) (append_doc ds (_join_docs l separator)).
Proof.
  intros F B. destruct (_join_docs l separator) as [c|] eqn:J; cbn; [|exact F].
  apply Forall_app. split; [exact F|]. constructor; [|constructor].
  apply join_docs_len in J. lia.
Qed.

Lemma merge_step_size st d :
  size_inv self separator st ->
  0 < len d <= _chunk_size self ->
  exists st', merge_step self separator st d = Returns st'
              /\ size_inv self separator st'.
Proof.
  intros (Ht & Hb & Hne & Hds) Hd.
  unfold merge_step.
  destruct (total st + len d
            + (if len (current_doc st) >? 0 then separator_len separator else 0)
            >? _chunk_size self) eqn:Big;
    [destruct (len (current_doc st) >? 0) eqn:NE|].
  - rewrite Ht.
    destruct (pop_while_spec self separator overlap_nonneg (len d) (current_doc st))
      as (cur' & E & [p S] & B & R).
    rewrite E. eexists. split; [reflexivity|].
    assert (Hne' : Forall (fun s => 0 < len s) cur').
    { rewrite S in Hne. apply Forall_app in Hne. tauto. }
    unfold size_inv. cbn [docs current_doc total].
    split; [rewrite join_snoc; unfold separator_len; lia|].
    split; [|split].
    + destruct R as [R|R].
      * unfold separator_len. lens.
      * apply (join_nonempty _ Hne') in R. subst cur'. cbn [join app].
        unfold separator_len. lens.
    + apply Forall_app. split; [exact Hne'|]. constructor; [lia|constructor].
    + apply append_doc_size; [exact Hds|lia].
  - eexists. split; [reflexivity|].
    destruct (current_doc st) as [|x l] eqn:C; [|lens].
    unfold size_inv. cbn [docs current_doc total]. rewrite ?C, Ht.
    cbn [app join]. unfold separator_len.
    split; [lens|]. split; [lens|]. split; [|exact Hds].
    constructor; [lia|constructor].
  - eexists. split; [reflexivity|].
    unfold size_inv. cbn [docs current_doc total].
    split; [rewrite join_snoc, Ht; unfold separator_len; lia|].
    split; [|split; [|exact Hds]].
    + unfold separator_len in *. lens.
    + apply Forall_app. split; [exact Hne|]. constructor; [lia|constructor].
Qed.

Lemma merge_loop_size splits :
  Forall (fun s => 0 < len s <= _chunk_size self) splits ->
  forall st,
    size_inv self separator st ->
    exists st', merge_loop self separator splits st = Returns st'
                /\ size_inv self separator st'.
Proof.
  induction 1 as [|d rest Hd _ IH]; intros st I; cbn [merge_loop].
  - exists st. auto.
  - destruct (merge_step_size st d I Hd) as (st1 & -> & I1). apply IH, I1.
Qed.

(** When no piece is longer than the chunk size, no chunk is. *)
Lemma merge_splits_size splits :
  Forall (fun s => 0 < len s <= _chunk_size self) splits ->
  exists chunks,
    _merge_splits self separator splits = Returns chunks
    /\ Forall (fun c => len c <= _chunk_size self) chunks.
Proof.
  intros F.
  destruct (merge_loop_size splits F {| docs := []; current_doc := []; total := 0 |})
    as (st & E & (Ht & Hb & _ & Hds)).
  { unfold size_inv. cbn. auto. }
  unfold _merge_splits. rewrite E. eexists. split; [reflexivity|].
  apply append_doc_size; [exact Hds|lia].
Qed.
End SizeFacts.

(** ** Lines and segments *)

Lemma re_split_not_nil separator text :
  forall skip piece, CharacterTextSplitter.re_split separator skip piece text <> [].
Proof.
  induction text as [|c rest IH]; intros skip piece; cbn; [discriminate|].
  destruct skip; [|apply IH].
  destruct (starts_with separator (c :: rest)); [discriminate|apply IH].
Qed.

(** Joining the lines of a text with newlines gives the text back. *)
Lemma lines_join_acc text :
  forall piece,
    join [LF] (CharacterTextSplitter.re_split [LF] 0 piece text) = rev piece ++ text.
Proof.
  induction text as [|c rest IH]; intros piece.
  - cbn. now rewrite app_nil_r.
  - cbn [CharacterTextSplitter.re_split starts_with length Nat.sub].
    destruct (N.eqb_spec LF c) as [<-|Hne]; cbn [andb].
    + pose proof (re_split_not_nil [LF] rest 0%nat []) as NN.
      specialize (IH []).
      destruct (CharacterTextSplitter.re_split [LF] 0 [] rest) as [|x l];
        [congruence|].
      cbn [join]. cbn [join] in IH. rewrite IH. reflexivity.
    + rewrite IH. cbn [rev]. now rewrite <- app_assoc.
Qed.

Lemma lines_join text : join [LF] (lines text) = text.
Proof. apply (lines_join_acc text []). Qed.

Lemma segments_lines text :
  segments text = filter (fun s => negb (Nat.eqb (length s) 0)) (lines text).
Proof. reflexivity. Qed.

Lemma segments_nonempty text : Forall (fun s => 0 < len s) (segments text).
Proof.
  rewrite segments_lines. apply Forall_forall. intros s Hs.
  apply filter_In in Hs. destruct Hs as [_ Hs].
  unfold len. destruct s; [discriminate|cbn; lia].
Qed.

(** ** What is carried over is shared text *)

(** The join of a suffix of the lines ends the join of the lines, and
    the join of a prefix starts it: the lines carried from one window to
    the next are text that both chunks contain, before stripping. *)
Lemma join_suffix separator (c l : list str) :
  is_suffix c l -> is_suffix (join separator c) (join separator l).
Proof.
  intros [p ->]. induction p as [|a p IH].
  - apply is_suffix_refl.
  - cbn [app]. destruct (p ++ c) as [|x r] eqn:E.
    + apply app_eq_nil in E. destruct E as [-> ->]. exists a. cbn.
      now rewrite app_nil_r.
    + change (join separator (a :: x :: r))
        with (a ++ separator ++ join separator (x :: r)).
      destruct IH as [q ->]. exists (a ++ separator ++ q).
      now rewrite <- !app_assoc.
Qed.

Lemma join_prefix separator (c f : list str) :
  is_prefix (join separator c) (join separator (c ++ f)).
Proof.
  induction c as [|a c IH].
  - exists (join separator f). reflexivity.
  - destruct c as [|b c].
    + destruct f as [|x f].
      * exists []. cbn. now rewrite app_nil_r.
      * exists (separator ++ join separator (x :: f)). reflexivity.
    + change (join separator ((a :: b :: c) ++ f))
        with (a ++ separator ++ join separator ((b :: c) ++ f)).
      change (join separator (a :: b :: c))
        with (a ++ separator ++ join separator (b :: c)).
      destruct IH as [q ->]. exists q. now rewrite <- !app_assoc.
Qed.

(** ** The chunker *)

Example small_chunks :
  CharacterTextSplitter.split_text small_splitter (with_newlines "aa|bb|cc|dd|ee|ff")
  = Returns [with_newlines "aa|bb|cc"; with_newlines "cc|dd|ee"; with_newlines "ee|ff"].
Proof. reflexivity. Qed.

Example small_chunks_long_line :
  CharacterTextSplitter.split_text small_splitter
    (with_newlines "  a|   |b | aaaaaaaaaaaaaaaaaaaa|c")
  = Returns [with_newlines "a|   |b"; py "aaaaaaaaaaaaaaaaaaaa"; py "c"].
Proof. reflexivity. Qed.

Example chunks_hello :
  get_text_chunks (py "Hello world.") = Returns [py "Hello world."].
Proof. reflexivity. Qed.

Example chunks_blank_line :
  get_text_chunks (with_newlines "a||b") = Returns [with_newlines "a|b"].
Proof. reflexivity. Qed.

Example chunks_only_newline : get_text_chunks [LF] = Returns [].
Proof. reflexivity. Qed.

(** The chunker never raises: its chunks are the joined windows of a
    chain over the non-empty lines, with at most 200 characters carried
    from one window to the next. *)
Lemma get_text_chunks_windows text :
  exists ws,
    get_text_chunks text = Returns (chunks_of [LF] ws)
    /\ concat (map snd ws) = segments text
    /\ chained 200 [LF] [] ws.
Proof.
  unfold get_text_chunks, CharacterTextSplitter.split_text.
  apply (merge_splits_windows splitter [LF]). cbn. lia.
Qed.

Lemma get_text_chunks_size text :
  (forall s, In s (segments text) -> len s <= 1000) ->
  exists chunks,
    get_text_chunks text = Returns chunks
    /\ Forall (fun c => len c <= 1000) chunks.
Proof.
  intros H. unfold get_text_chunks, CharacterTextSplitter.split_text.
  apply (merge_splits_size splitter [LF]); cbn; try lia.
  pose proof (segments_nonempty text) as NE.
  rewrite Forall_forall in *. intros s Hs. split; [now apply NE|now apply H].
Qed.

(** C2, as stated, fails: the text "a", newline, newline, "b" is chunked
    into the single chunk "a", newline, "b", from which no removal of
    overlap gives the text back. *)
Lemma C2_counterexample :
  ~ (exists chunks,
        get_text_chunks [97; LF; LF; 98]%N = Returns chunks
        /\ reconstructs chunks [97; LF; LF; 98]%N).
Proof.
  intros (chunks & E & ks & L & R).
  vm_compute in E. injection E as <-.
  destruct ks as [|k [|k' ks]]; try discriminate.
  cbn [combine map concat fst snd] in R.
  apply (f_equal (@length char)) in R.
  rewrite length_app, length_skipn in R. cbn [length] in R. lia.
Qed.

(** ** Extraction *)

Lemma read_pages_ok (texts : list str) :
  forall text, read_pages (map Returns texts) text = (text ++ concat texts, Returns tt).
Proof.
  induction texts as [|t texts IH]; intros text; cbn [map read_pages concat].
  - now rewrite app_nil_r.
  - rewrite IH. now rewrite <- app_assoc.
Qed.

(** [get_pdf_text] never raises: it logs the call, reports at most one
    error, and returns a text. *)
Lemma get_pdf_text_shape (w : world) (path : str) :
  exists errs text,
    get_pdf_text w path = (Ext (call_fitz_open path) :: errs, Returns text)
    /\ (errs = []
        \/ exists e,
            errs = [UI (st_error (py "Error extracting text from PDF: " ++ exn_msg e))]).
Proof.
  unfold get_pdf_text.
  destruct (get_pdf_text_try w path []) as [text [[]|e]]; cbn.
  - exists [], text. auto.
  - eexists _, text. split; [reflexivity|]. right. now exists e.
Qed.

(** X3. A document that cannot be opened gives the empty text and an error
    message. *)
Lemma get_pdf_text_open_fails (w : world) (path : str) (e : exn) :
  fitz_open w path = Raises e ->
  get_pdf_text w path
  = ([Ext (call_fitz_open path);
      UI (st_error (py "Error extracting text from PDF: " ++ exn_msg e))],
     Returns []).
Proof. intros H. unfold get_pdf_text, get_pdf_text_try. now rewrite H. Qed.

(** C3. For a PDF that opens, whose pages all yield their text, that
    closes, and that bears text on some page, extraction returns the
    concatenation of the page texts in page order, which is not empty,
    and reports nothing. *)
Theorem C3_extraction_concatenates_pages
  (w : world) (path : str) (doc : document) (texts : list str) :
  fitz_open w path = Returns doc ->
  pages doc = map Returns texts ->
  close doc = Returns tt ->
  (exists t, In t texts /\ t <> []) ->
  get_pdf_text w path = ([Ext (call_fitz_open path)], Returns (concat texts))
  /\ concat texts <> [].
Proof.
  intros Ho Hp Hc (t & Ht & Hne). split.
  - unfold get_pdf_text, get_pdf_text_try.
    rewrite Ho, Hp, read_pages_ok, Hc. reflexivity.
  - intros E. apply Hne.
    clear -E Ht. induction texts as [|x texts IH]; [contradiction|].
    cbn [concat] in E. apply app_eq_nil in E. destruct E as [Ex Et].
    destruct Ht as [<-|Ht]; [exact Ex|now apply IH].
Qed.

Lemma C3_witness :
  get_pdf_text hello_world (py "/tmp/tmpa1b2c3.pdf")
  = ([Ext (call_fitz_open (py "/tmp/tmpa1b2c3.pdf"))],
     Returns (concat [py "Hello world."]))
  /\ concat [py "Hello world."] <> [].
Proof.
  apply (C3_extraction_concatenates_pages hello_world (py "/tmp/tmpa1b2c3.pdf")
           {| pages := [Returns (py "Hello world.")]; close := Returns tt |}
           [py "Hello world."]).
  - reflexivity.
  - reflexivity.
  - reflexivity.
  - exists (py "Hello world."). split; [now left|discriminate].
Defined.

(** C4, at a PDF that opens and whose second page cannot be parsed: the
    error is reported and nothing is raised, but the text returned is
    that of the first page, not the empty string. *)
Theorem C4_partial_text_returned :
  get_pdf_text torn_pdf_world (py "/tmp/tmpa1b2c3.pdf")
  = ([Ext (call_fitz_open (py "/tmp/tmpa1b2c3.pdf"));
      UI (st_error (py "Error extracting text from PDF: " ++ py "cannot load page"))],
     Returns (py "A"))
  /\ py "A" <> [].
Proof. split; [reflexivity|discriminate]. Qed.

Example torn_pdf_run :
  fst (run torn_pdf_world (Some []))
  = [UI (st_spinner (magnifier :: py " Extracting text from PDF..."));
     Ext (call_fitz_open (py "/tmp/tmpa1b2c3.pdf"));
     UI (st_error (py "Error extracting text from PDF: " ++ py "cannot load page"));
     UI (st_success (check_mark :: py " Extracted 1 characters from the PDF."));
     UI (st_spinner (link_sign :: py " Splitting and indexing text..."));
     Ext (call_split_text (py "A"));
     Ext (call_HuggingFaceEmbeddings embedding_model);
     Ext (call_FAISS_from_texts [py "A"]);
     UI (st_success (check_mark :: py " Vectorstore created successfully."));
     UI (st_spinner (robot :: py " Generating blog-style summary..."));
     Ext (call_ChatGroq llm_args);
     Ext (call_RetrievalQA_from_chain_type prompt);
     Ext (call_invoke (py "A"));
     UI (st_subheader (memo :: py " Blog Summary"));
     UI (st_write (py "A summary."));
     UI (st_download_button (inbox :: py " Download Summary") (py "A summary.")
           (py "summary.txt") (py "text/plain"))].
Proof. reflexivity. Qed.

(** ** The upload handler *)

Ltac run_step :=
  unfold run, process, summary_block, bind, try_except, st, ext, ret; cbn [fst snd app].

(** C5. When the upload was stored and extraction returns the empty
    string, the run shows the message that no text could be extracted
    and stops: after the extraction nothing else happens, and the run
    makes no chunking, indexing or summarization call. *)
Theorem C5_empty_text_halts
  (w : world) (upload : list N) (tmp_path : str) (log : list event) :
  NamedTemporaryFile_write w upload = Returns tmp_path ->
  get_pdf_text w tmp_path = (log, Returns []) ->
  run w (Some upload)
  = (UI (st_spinner (magnifier :: py " Extracting text from PDF...")) :: log
       ++ [UI (st_error (py "No text could be extracted from the PDF."))],
     Returns tt)
  /\ none_of is_chunking_call (fst (run w (Some upload)))
  /\ none_of is_indexing_call (fst (run w (Some upload)))
  /\ none_of is_summarization_call (fst (run w (Some upload))).
Proof.
  intros Ht Hx.
  assert (R : run w (Some upload)
              = (UI (st_spinner (magnifier :: py " Extracting text from PDF...")) :: log
                   ++ [UI (st_error (py "No text could be extracted from the PDF."))],
                 Returns tt)).
  { run_step. rewrite Ht. cbn. rewrite Hx. cbn. reflexivity. }
  split; [exact R|]. rewrite R. cbn [fst].
  destruct (get_pdf_text_shape w tmp_path) as (errs & text & E & Herrs).
  rewrite Hx in E. injection E as -> _.
  unfold none_of.
  destruct Herrs as [->|[e ->]]; repeat split; reflexivity.
Qed.

Lemma C5_witness :
  run no_pages_world (Some [])
  = (UI (st_spinner (magnifier :: py " Extracting text from PDF..."))
       :: [Ext (call_fitz_open (py "/tmp/tmpa1b2c3.pdf"))]
       ++ [UI (st_error (py "No text could be extracted from the PDF."))],
     Returns tt)
  /\ none_of is_chunking_call (fst (run no_pages_world (Some [])))
  /\ none_of is_indexing_call (fst (run no_pages_world (Some [])))
  /\ none_of is_summarization_call (fst (run no_pages_world (Some []))).
Proof.
  apply (C5_empty_text_halts no_pages_world [] (py "/tmp/tmpa1b2c3.pdf")).
  - reflexivity.
  - reflexivity.
Defined.

Lemma get_vectorstore_no_embeddings (w : world) (chunks : list str) (e : exn) :
  HuggingFaceEmbeddings w embedding_model = Raises e ->
  get_vectorstore w chunks
  = ([Ext (call_HuggingFaceEmbeddings embedding_model);
      UI (st_error
            (py "Failed to load embedding model. Please check your HuggingFace token and internet connection."
             ++ [LF] ++ py "Error: " ++ exn_msg e))],
     Returns None).
Proof. intros H. unfold get_vectorstore, bind, ext, try_except. now rewrite H. Qed.

(** X5. Building the index can fail as well; the result is the same. *)
Lemma get_vectorstore_no_index
  (w : world) (chunks : list str) (emb : embeddings) (e : exn) :
  HuggingFaceEmbeddings w embedding_model = Returns emb ->
  FAISS_from_texts w chunks emb = Raises e ->
  get_vectorstore w chunks
  = ([Ext (call_HuggingFaceEmbeddings embedding_model);
      Ext (call_FAISS_from_texts chunks);
      UI (st_error
            (py "Failed to load embedding model. Please check your HuggingFace token and internet connection."
             ++ [LF] ++ py "Error: " ++ exn_msg e))],
     Returns None).
Proof.
  intros H1 H2. unfold get_vectorstore, bind, ext, try_except. now rewrite H1, H2.
Qed.

(** ** Summarization *)

(** The step never raises.  It returns the value found under "result" in
    the response when the client, the chain and the query all return and
    the key is there; in every other case it reports one error and
    returns [None]. *)
Lemma summarize_spec (w : world) (vs : vectorstore) (raw_text : str) :
  exists log r,
    summarize w vs raw_text = (log, Returns r)
    /\ filter is_summarization_call log = summarization_calls w vs raw_text
    /\ none_of is_summary_shown log
    /\ match r with
       | Some s =>
           none_of is_error log
           /\ exists l c response,
               ChatGroq w llm_args = Returns l
               /\ RetrievalQA_from_chain_type w l vs prompt = Returns c
               /\ invoke w c raw_text = Returns response
               /\ dict_get response (py "result") = Some s
       | None =>
           exists e,
             filter is_error log
             = [UI (st_error (py "Error generating summary: " ++ exn_msg e))]
       end.
Proof.
  unfold summarize, summarization_calls, getitem, bind, ext, try_except, st, ret, raise,
    none_of.
  destruct (ChatGroq w llm_args) as [l|e] eqn:E1;
    [destruct (RetrievalQA_from_chain_type w l vs prompt) as [c|e] eqn:E2;
     [destruct (invoke w c raw_text) as [response|e] eqn:E3;
      [destruct (dict_get response (py "result")) as [s|] eqn:E4|]|]|];
    cbn [app fst snd]; eexists _, _; (split; [reflexivity|]);
    (split; [cbn [filter is_summarization_call]; rewrite ?E2; reflexivity|]);
    (split; [reflexivity|]).
  - split; [reflexivity|]. exists l, c, response. auto.
  - eexists. reflexivity.
  - eexists. reflexivity.
  - eexists. reflexivity.
  - eexists. reflexivity.
Qed.

Lemma show_summary_spec (r : option str) :
  show_summary r
  = (match r with
     | Some (c :: s) => summary_display (c :: s)
     | _ => []
     end, Returns tt).
Proof. destruct r as [[|c s]|]; reflexivity. Qed.

(** C7, as stated, fails: when the model answers with the empty text the
    summarization step succeeds, and no summary is displayed or offered. *)
Lemma C7_counterexample :
  ~ (summarization_succeeds empty_answer_world (Vectorstore 0) (py "Hello world.")
     <-> summary_offered
           (fst (summary_block empty_answer_world (Vectorstore 0) (py "Hello world.")))).
Proof.
  intros [H _].
  destruct H as [s Hs].
  - exists []. reflexivity.
  - specialize (Hs (UI (st_write s)) (or_intror (or_introl eq_refl))).
    vm_compute in Hs.
    repeat (destruct Hs as [Hs|Hs]; [discriminate Hs|]). exact Hs.
Qed.

(** C7, amended. The summarization step never raises.  It returns the
    text found under "result" in the model's response exactly when the
    client, the chain and the query all return and the response has that
    entry, and then reports no error; when the client, the chain or the
    query raises, or the entry is missing, it reports that failure in
    one error message and returns [None].  The summary is displayed and
    offered for download as summary.txt, of type text/plain, with the
    generated text as its content, exactly when the step returned a
    non-empty text; otherwise nothing is displayed or offered. *)
Theorem C7_summary_shown_iff_nonempty (w : world) (vs : vectorstore) (raw_text : str) :
  exists log r,
    summarize w vs raw_text = (log, Returns r)
    /\ none_of is_summary_shown log
    /\ match r with
       | Some s =>
           none_of is_error log
           /\ exists l c response,
               ChatGroq w llm_args = Returns l
               /\ RetrievalQA_from_chain_type w l vs prompt = Returns c
               /\ invoke w c raw_text = Returns response
               /\ dict_get response (py "result") = Some s
       | None =>
           exists e,
             filter is_error log
             = [UI (st_error (py "Error generating summary: " ++ exn_msg e))]
       end
    /\ (forall l c response s,
          ChatGroq w llm_args = Returns l ->
          RetrievalQA_from_chain_type w l vs prompt = Returns c ->
          invoke w c raw_text = Returns response ->
          dict_get response (py "result") = Some s ->
          r = Some s)
    /\ (forall e,
          ChatGroq w llm_args = Raises e
          \/ (exists l,
                 ChatGroq w llm_args = Returns l
                 /\ RetrievalQA_from_chain_type w l vs prompt = Raises e)
          \/ (exists l c,
                 ChatGroq w llm_args = Returns l
                 /\ RetrievalQA_from_chain_type w l vs prompt = Returns c
                 /\ invoke w c raw_text = Raises e)
          \/ (exists l c response,
                 ChatGroq w llm_args = Returns l
                 /\ RetrievalQA_from_chain_type w l vs prompt = Returns c
                 /\ invoke w c raw_text = Returns response
                 /\ dict_get response (py "result") = None
                 /\ e = Exception (py "'result'")) ->
          r = None
          /\ filter is_error log
             = [UI (st_error (py "Error generating summary: " ++ exn_msg e))])
    /\ summary_block w vs raw_text
       = (log ++ match r with
                 | Some (c :: s) =>
                     [UI (st_subheader (memo :: py " Blog Summary"));
                      UI (st_write (c :: s));
                      UI (st_download_button (inbox :: py " Download Summary") (c :: s)
                            (py "summary.txt") (py "text/plain"))]
                 | _ => []
                 end,
          Returns tt).
Proof.
  destruct (summarize_spec w vs raw_text) as (log & r & E & _ & Hs & Hr).
  exists log, r. split; [exact E|]. split; [exact Hs|]. split; [exact Hr|].
  split; [|split].
  - intros l c response s H1 H2 H3 H4. revert E.
    unfold summarize, getitem, bind, ext, try_except, ret.
    rewrite H1, H2, H3, H4. cbn [app fst snd]. now intros [= _ <-].
  - intros e H. revert E.
    unfold summarize, getitem, bind, ext, try_except, ret, raise, st, KeyError.
    destruct H as [H1|[(l & H1 & H2)|[(l & c & H1 & H2 & H3)
                                     |(l & c & response & H1 & H2 & H3 & H4 & ->)]]];
      rewrite ?H1, ?H2, ?H3, ?H4; cbn [app fst snd];
      intros [= <- <-]; split; reflexivity.
  - unfold summary_block, bind. rewrite E, show_summary_spec. reflexivity.
Qed.

(** When the client, the chain and the query all return and the
    generated text is the empty string, the summarization block makes
    its three calls and nothing else: no summary is shown, no download
    is offered and no error is reported.  In a run that gets there, the
    page shows no summary, and the only error messages of the run are
    those the extraction reported before. *)
Lemma empty_summary_silent
  (w : world) (upload : list N) (tmp_path : str) (log : list event)
  (raw_text : str) (chunks : list str) (emb : embeddings) (vs : vectorstore)
  (l : llm) (c : chain) (response : dict) :
  NamedTemporaryFile_write w upload = Returns tmp_path ->
  get_pdf_text w tmp_path = (log, Returns raw_text) ->
  raw_text <> [] ->
  get_text_chunks raw_text = Returns chunks ->
  HuggingFaceEmbeddings w embedding_model = Returns emb ->
  FAISS_from_texts w chunks emb = Returns vs ->
  ChatGroq w llm_args = Returns l ->
  RetrievalQA_from_chain_type w l vs prompt = Returns c ->
  invoke w c raw_text = Returns response ->
  dict_get response (py "result") = Some [] ->
  summary_block w vs raw_text
  = ([Ext (call_ChatGroq llm_args);
      Ext (call_RetrievalQA_from_chain_type prompt);
      Ext (call_invoke raw_text)], Returns tt)
  /\ none_of is_summary_shown (fst (run w (Some upload)))
  /\ filter is_error (fst (run w (Some upload))) = filter is_error log.
Proof.
  intros Ht Hx Hne Hc He Hf Hg Hq Hi Hr.
  assert (B : summary_block w vs raw_text
              = ([Ext (call_ChatGroq llm_args);
                  Ext (call_RetrievalQA_from_chain_type prompt);
                  Ext (call_invoke raw_text)], Returns tt)).
  { unfold summary_block, summarize, getitem, bind, ext, try_except, ret.
    rewrite Hg, Hq, Hi, Hr. reflexivity. }
  split; [exact B|].
  assert (V : get_vectorstore w chunks
              = ([Ext (call_HuggingFaceEmbeddings embedding_model);
                  Ext (call_FAISS_from_texts chunks)], Returns (Some vs))).
  { unfold get_vectorstore, bind, ext, try_except, ret. now rewrite He, Hf. }
  destruct (get_pdf_text_shape w tmp_path) as (errs & text & E & Herrs).
  rewrite Hx in E. injection E as -> ->.
  destruct text as [|ch text]; [contradiction|].
  unfold none_of, run, process, bind, try_except, st, ext, ret.
  rewrite Ht. cbn [app fst snd]. rewrite Hx. cbn [app fst snd].
  rewrite Hc, V, B. cbn [app fst snd].
  destruct Herrs as [->|[e ->]]; split; reflexivity.
Qed.

Lemma empty_summary_silent_witness :
  summary_block empty_answer_world (Vectorstore 0) (py "Hello world.")
  = ([Ext (call_ChatGroq llm_args);
      Ext (call_RetrievalQA_from_chain_type prompt);
      Ext (call_invoke (py "Hello world."))], Returns tt)
  /\ none_of is_summary_shown (fst (run empty_answer_world (Some [])))
  /\ filter is_error (fst (run empty_answer_world (Some [])))
     = filter is_error [Ext (call_fitz_open (py "/tmp/tmpa1b2c3.pdf"))].
Proof.
  apply (empty_summary_silent empty_answer_world [] (py "/tmp/tmpa1b2c3.pdf")
           [Ext (call_fitz_open (py "/tmp/tmpa1b2c3.pdf"))] (py "Hello world.")
           [py "Hello world."] (Embeddings 0) (Vectorstore 0) (Llm 0) (Chain 0)
           [(py "result", [])]);
    try reflexivity.
  discriminate.
Defined.

(** ** Queries to the chat model *)

Lemma get_vectorstore_shape (w : world) (chunks : list str) :
  exists vlog r,
    get_vectorstore w chunks = (vlog, Returns r)
    /\ none_of is_summarization_call vlog
    /\ none_of is_query vlog
    /\ ~ reaches_summarization vlog.
Proof.
  unfold get_vectorstore, bind, ext, try_except, st, ret, none_of, reaches_summarization.
  destruct (HuggingFaceEmbeddings w embedding_model) as [emb|e];
    [destruct (FAISS_from_texts w chunks emb) as [vs|e]|];
    cbn [app fst snd]; eexists _, _; (split; [reflexivity|]);
    (split; [reflexivity|]); (split; [reflexivity|]);
    intros H; cbn [In] in H;
    repeat (destruct H as [H|H]; [discriminate H|]); exact H.
Qed.

Lemma summary_block_calls (w : world) (vs : vectorstore) (raw_text : str) :
  filter is_summarization_call (fst (summary_block w vs raw_text))
  = summarization_calls w vs raw_text
  /\ (length (filter is_query (fst (summary_block w vs raw_text))) <= 1)%nat
  /\ snd (summary_block w vs raw_text) = Returns tt.
Proof.
  unfold summary_block, summarize, summarization_calls, getitem, bind, ext,
    try_except, st, ret, raise.
  destruct (ChatGroq w llm_args) as [l|e] eqn:E1;
    [destruct (RetrievalQA_from_chain_type w l vs prompt) as [c|e] eqn:E2;
     [destruct (invoke w c raw_text) as [response|e] eqn:E3;
      [destruct (dict_get response (py "result")) as [[|ch s]|] eqn:E4|]|]|];
    cbn [app fst snd filter is_summarization_call is_query show_summary truthy length];
    rewrite ?E2; (split; [reflexivity|]); (split; [cbn; lia|reflexivity]).
Qed.

(** C8, as stated, fails: when the chat client cannot be built, the run
    reaches the summarization step and issues no query. *)
Lemma C8_counterexample :
  ~ (reaches_summarization (fst (run no_key_world (Some [])))
     -> length (filter is_query (fst (run no_key_world (Some [])))) = 1%nat).
Proof.
  intros H.
  assert (R : reaches_summarization (fst (run no_key_world (Some [])))).
  { unfold reaches_summarization.
    change (fst (run no_key_world (Some [])))
      with [UI (st_spinner (magnifier :: py " Extracting text from PDF..."));
            Ext (call_fitz_open (py "/tmp/tmpa1b2c3.pdf"));
            UI (st_success (check_mark :: py " Extracted 12 characters from the PDF."));
            UI (st_spinner (link_sign :: py " Splitting and indexing text..."));
            Ext (call_split_text (py "Hello world."));
            Ext (call_HuggingFaceEmbeddings embedding_model);
            Ext (call_FAISS_from_texts [py "Hello world."]);
            UI (st_success (check_mark :: py " Vectorstore created successfully."));
            UI (st_spinner (robot :: py " Generating blog-style summary..."));
            Ext (call_ChatGroq llm_args);
            UI (st_error (py "Error generating summary: "
                          ++ py "The api_key client option must be set"))].
    cbn [In]. tauto. }
  apply H in R. vm_compute in R. discriminate R.
Qed.

Ltac not_reached H :=
  unfold reaches_summarization in H; cbn [In app] in H;
  repeat (destruct H as [H|H];
          [first [discriminate H | (injection H; intros; discriminate)]|]);
  try contradiction.

(** A run reaches the summarization step only after the upload was
    stored, a non-empty text extracted and chunked, and the vector store
    built; its summarization calls are then those of the step. *)
Lemma reaches_summarization_inv (w : world) (pdf_file : option (list N)) :
  reaches_summarization (fst (run w pdf_file)) ->
  exists upload tmp_path log raw_text chunks vlog vs,
    pdf_file = Some upload
    /\ NamedTemporaryFile_write w upload = Returns tmp_path
    /\ get_pdf_text w tmp_path = (log, Returns raw_text)
    /\ get_text_chunks raw_text = Returns chunks
    /\ get_vectorstore w chunks = (vlog, Returns (Some vs))
    /\ filter is_summarization_call (fst (run w pdf_file))
       = summarization_calls w vs raw_text
    /\ (length (filter is_query (fst (run w pdf_file))) <= 1)%nat.
Proof.
  destruct pdf_file as [upload|]; [|intros []].
  unfold run, process, bind, try_except, st, ext, ret.
  destruct (NamedTemporaryFile_write w upload) as [tmp_path|e0] eqn:Ht;
    cbn [app fst snd]; [|intros H; not_reached H].
  destruct (get_pdf_text_shape w tmp_path) as (errs & text & Hx & Herrs).
  rewrite Hx. cbn [app fst snd].
  destruct text as [|ch text].
  { intros H. destruct Herrs as [->|[e1 ->]]; not_reached H. }
  destruct (get_text_chunks (ch :: text)) as [chunks|e2] eqn:Hc; cbn [app fst snd].
  2:{ intros H. destruct Herrs as [->|[e1 ->]]; not_reached H. }
  destruct (get_vectorstore_shape w chunks) as (vlog & r & Hv & Vs & Vq & Vr).
  rewrite Hv. cbn [app fst snd].
  destruct r as [vs|].
  2:{ intros H. exfalso. apply Vr. unfold reaches_summarization in *.
      rewrite app_nil_r in H.
      destruct Herrs as [->|[e1 ->]]; cbn [In app] in H;
        repeat (destruct H as [H|H];
                [first [discriminate H | (injection H; intros; discriminate)]|]);
        exact H. }
  intros _.
  destruct (summary_block_calls w vs (ch :: text)) as (Sc & Sq & Sr).
  destruct (summary_block w vs (ch :: text)) as [slog sr].
  cbn [fst snd] in Sc, Sq, Sr. subst sr.
  exists upload, tmp_path, (Ext (call_fitz_open tmp_path) :: errs), (ch :: text),
    chunks, vlog, vs.
  repeat (split; [reflexivity || assumption|]).
  unfold none_of in *.
  destruct Herrs as [->|[e1 ->]];
    cbn [app fst snd filter is_summarization_call is_query];
    rewrite !filter_app; cbn [filter is_summarization_call is_query];
    rewrite ?Vs, ?Vq; cbn [app]; auto.
Qed.


(** C6. When the embedding model cannot be loaded, [get_vectorstore]
    returns [None] after reporting the error, without building any
    index, and the run neither reaches the summarization step nor makes
    any summarization call. *)
Theorem C6_no_embeddings_no_summary (w : world) (e : exn) :
  HuggingFaceEmbeddings w embedding_model = Raises e ->
  (forall chunks,
      get_vectorstore w chunks
      = ([Ext (call_HuggingFaceEmbeddings embedding_model);
          UI (st_error
                (py "Failed to load embedding model. Please check your HuggingFace token and internet connection."
                 ++ [LF] ++ py "Error: " ++ exn_msg e))],
         Returns None))
  /\ (forall pdf_file,
         none_of is_summarization_call (fst (run w pdf_file))
         /\ ~ reaches_summarization (fst (run w pdf_file))).
Proof.
  intros H. split; [intros chunks; now apply get_vectorstore_no_embeddings|].
  intros pdf_file. split.
  2:{ intros R. apply reaches_summarization_inv in R.
      destruct R as (upload & tmp_path & log & raw_text & chunks & vlog & vs
                     & _ & _ & _ & _ & V & _).
      rewrite (get_vectorstore_no_embeddings w chunks e H) in V. discriminate V. }
  destruct pdf_file as [upload|]; [|reflexivity].
  unfold none_of. run_step.
  destruct (NamedTemporaryFile_write w upload) as [tmp_path|e0]; [|reflexivity].
  destruct (get_pdf_text_shape w tmp_path) as (errs & text & -> & Herrs).
  destruct text as [|c text].
  - destruct Herrs as [->|[e1 ->]]; reflexivity.
  - destruct (get_text_chunks (c :: text)) as [chunks|e2].
    + rewrite (get_vectorstore_no_embeddings w chunks e H).
      destruct Herrs as [->|[e1 ->]]; reflexivity.
    + destruct Herrs as [->|[e1 ->]]; reflexivity.
Qed.

Lemma C6_witness :
  (forall chunks,
      get_vectorstore no_embeddings_world chunks
      = ([Ext (call_HuggingFaceEmbeddings embedding_model);
          UI (st_error
                (py "Failed to load embedding model. Please check your HuggingFace token and internet connection."
                 ++ [LF] ++ py "Error: " ++ exn_msg (Exception (py "401 Unauthorized"))))],
         Returns None))
  /\ (forall pdf_file,
         none_of is_summarization_call (fst (run no_embeddings_world pdf_file))
         /\ ~ reaches_summarization (fst (run no_embeddings_world pdf_file))).
Proof.
  apply (C6_no_embeddings_no_summary no_embeddings_world
           (Exception (py "401 Unauthorized"))).
  reflexivity.
Defined.

(** C8, amended. In every run that reaches the summarization step, the
    chat client is asked for with the fixed model identifier,
    temperature 0.7 and a timeout of 30 seconds; the chain is built only
    if the client was, and the query is issued only if the chain was.
    So at most one query is issued -- exactly one when the client and
    the chain are built -- and its text is the whole extracted text. *)
Theorem C8_at_most_one_query (w : world) (pdf_file : option (list N)) :
  reaches_summarization (fst (run w pdf_file)) ->
  exists upload tmp_path log raw_text chunks vlog vs,
    pdf_file = Some upload
    /\ NamedTemporaryFile_write w upload = Returns tmp_path
    /\ get_pdf_text w tmp_path = (log, Returns raw_text)
    /\ get_text_chunks raw_text = Returns chunks
    /\ get_vectorstore w chunks = (vlog, Returns (Some vs))
    /\ filter is_summarization_call (fst (run w pdf_file))
       = summarization_calls w vs raw_text
    /\ (length (filter is_query (fst (run w pdf_file))) <= 1)%nat
    /\ llm_args = {| model_name := py "meta-llama/llama-4-scout-17b-16e-instruct";
                     temperature := 7 # 10;
                     request_timeout := 30 |}.
Proof.
  intros R.
  destruct (reaches_summarization_inv w pdf_file R)
    as (upload & tmp_path & log & raw_text & chunks & vlog & vs & H).
  exists upload, tmp_path, log, raw_text, chunks, vlog, vs.
  repeat split; apply H.
Qed.

Lemma C8_witness :
  exists upload tmp_path log raw_text chunks vlog vs,
    Some [] = Some upload
    /\ NamedTemporaryFile_write hello_world upload = Returns tmp_path
    /\ get_pdf_text hello_world tmp_path = (log, Returns raw_text)
    /\ get_text_chunks raw_text = Returns chunks
    /\ get_vectorstore hello_world chunks = (vlog, Returns (Some vs))
    /\ filter is_summarization_call (fst (run hello_world (Some [])))
       = summarization_calls hello_world vs raw_text
    /\ (length (filter is_query (fst (run hello_world (Some [])))) <= 1)%nat
    /\ llm_args = {| model_name := py "meta-llama/llama-4-scout-17b-16e-instruct";
                     temperature := 7 # 10;
                     request_timeout := 30 |}.
Proof.
  apply (C8_at_most_one_query hello_world (Some [])).
  unfold reaches_summarization.
  change (fst (run hello_world (Some [])))
    with [UI (st_spinner (magnifier :: py " Extracting text from PDF..."));
          Ext (call_fitz_open (py "/tmp/tmpa1b2c3.pdf"));
          UI (st_success (check_mark :: py " Extracted 12 characters from the PDF."));
          UI (st_spinner (link_sign :: py " Splitting and indexing text..."));
          Ext (call_split_text (py "Hello world."));
          Ext (call_HuggingFaceEmbeddings embedding_model);
          Ext (call_FAISS_from_texts [py "Hello world."]);
          UI (st_success (check_mark :: py " Vectorstore created successfully."));
          UI (st_spinner (robot :: py " Generating blog-style summary..."));
          Ext (call_ChatGroq llm_args);
          Ext (call_RetrievalQA_from_chain_type prompt);
          Ext (call_invoke (py "Hello world."));
          UI (st_subheader (memo :: py " Blog Summary"));
          UI (st_write (py "A summary."));
          UI (st_download_button (inbox :: py " Download Summary") (py "A summary.")
                (py "summary.txt") (py "text/plain"))].
  cbn [In]. tauto.
Defined.

(** * Further properties *)

(** ** Extraction: where a failure leaves the text *)

Lemma get_pdf_text_open_fails_witness :
  get_pdf_text unreadable_world (py "/tmp/tmpa1b2c3.pdf")
  = ([Ext (call_fitz_open (py "/tmp/tmpa1b2c3.pdf"));
      UI (st_error (py "Error extracting text from PDF: "
                    ++ exn_msg (Exception (py "cannot open broken document"))))],
     Returns []).
Proof.
  apply (get_pdf_text_open_fails unreadable_world (py "/tmp/tmpa1b2c3.pdf")
           (Exception (py "cannot open broken document"))).
  reflexivity.
Defined.

Lemma read_pages_raises (texts : list str) (e : exn) (rest : list (outcome str)) :
  forall text,
    read_pages (map Returns texts ++ Raises e :: rest) text
    = (text ++ concat texts, Raises e).
Proof.
  induction texts as [|t texts IH]; intros text; cbn [map app read_pages concat].
  - now rewrite app_nil_r.
  - rewrite IH. now rewrite <- app_assoc.
Qed.

(** X1. When a page cannot be read, the error is reported and the text of
    the pages before it is returned; nothing of the later pages is. *)
Theorem get_pdf_text_page_fails
  (w : world) (path : str) (doc : document)
  (texts : list str) (e : exn) (rest : list (outcome str)) :
  fitz_open w path = Returns doc ->
  pages doc = map Returns texts ++ Raises e :: rest ->
  get_pdf_text w path
  = ([Ext (call_fitz_open path);
      UI (st_error (py "Error extracting text from PDF: " ++ exn_msg e))],
     Returns (concat texts)).
Proof.
  intros Ho Hp. unfold get_pdf_text, get_pdf_text_try.
  rewrite Ho, Hp, read_pages_raises. reflexivity.
Qed.

Lemma get_pdf_text_page_fails_witness :
  get_pdf_text torn_pdf_world (py "/tmp/tmpa1b2c3.pdf")
  = ([Ext (call_fitz_open (py "/tmp/tmpa1b2c3.pdf"));
      UI (st_error (py "Error extracting text from PDF: "
                    ++ exn_msg (Exception (py "cannot load page"))))],
     Returns (concat [py "A"])).
Proof.
  apply (get_pdf_text_page_fails torn_pdf_world (py "/tmp/tmpa1b2c3.pdf")
           {| pages := [Returns (py "A"); Raises (Exception (py "cannot load page"))];
              close := Returns tt |}
           [py "A"] (Exception (py "cannot load page")) []).
  - reflexivity.
  - reflexivity.
Defined.

(** X2. When every page was read and closing the document fails, the error
    is reported and the whole text is returned all the same. *)
Theorem get_pdf_text_close_fails
  (w : world) (path : str) (doc : document) (texts : list str) (e : exn) :
  fitz_open w path = Returns doc ->
  pages doc = map Returns texts ->
  close doc = Raises e ->
  get_pdf_text w path
  = ([Ext (call_fitz_open path);
      UI (st_error (py "Error extracting text from PDF: " ++ exn_msg e))],
     Returns (concat texts)).
Proof.
  intros Ho Hp Hc. unfold get_pdf_text, get_pdf_text_try.
  rewrite Ho, Hp, read_pages_ok, Hc. reflexivity.
Qed.

Lemma get_pdf_text_close_fails_witness :
  get_pdf_text close_fails_world (py "/tmp/tmpa1b2c3.pdf")
  = ([Ext (call_fitz_open (py "/tmp/tmpa1b2c3.pdf"));
      UI (st_error (py "Error extracting text from PDF: "
                    ++ exn_msg (Exception (py "document closed"))))],
     Returns (concat [py "A"; py "B"])).
Proof.
  apply (get_pdf_text_close_fails close_fails_world (py "/tmp/tmpa1b2c3.pdf")
           {| pages := [Returns (py "A"); Returns (py "B")];
              close := Raises (Exception (py "document closed")) |}
           [py "A"; py "B"] (Exception (py "document closed"))).
  - reflexivity.
  - reflexivity.
  - reflexivity.
Defined.

(** ** The vector store *)

Lemma get_vectorstore_no_index_witness :
  get_vectorstore no_index_world []
  = ([Ext (call_HuggingFaceEmbeddings embedding_model);
      Ext (call_FAISS_from_texts []);
      UI (st_error
            (py "Failed to load embedding model. Please check your HuggingFace token and internet connection."
             ++ [LF] ++ py "Error: "
             ++ exn_msg (Exception (py "list index out of range"))))],
     Returns None).
Proof.
  apply (get_vectorstore_no_index no_index_world [] (Embeddings 0)
           (Exception (py "list index out of range"))).
  - reflexivity.
  - reflexivity.
Defined.

(** X4. [get_vectorstore] never raises.  It returns an index exactly when the
    embedding model loads and the index is built from the chunks, and
    that index is the one built; it reports an error exactly when it
    returns [None]. *)
Theorem get_vectorstore_result (w : world) (chunks : list str) :
  exists vlog r,
    get_vectorstore w chunks = (vlog, Returns r)
    /\ (forall vs,
          r = Some vs
          <-> exists emb,
                HuggingFaceEmbeddings w embedding_model = Returns emb
                /\ FAISS_from_texts w chunks emb = Returns vs)
    /\ length (filter is_error vlog) = match r with Some _ => 0%nat | None => 1%nat end.
Proof.
  unfold get_vectorstore, bind, ext, try_except, st, ret.
  destruct (HuggingFaceEmbeddings w embedding_model) as [emb|e] eqn:E1;
    [destruct (FAISS_from_texts w chunks emb) as [vs0|e] eqn:E2|];
    cbn [app fst snd]; eexists _, _; (split; [reflexivity|]); (split; [|reflexivity]);
    intros vs; split.
  - intros [= <-]. exists emb. auto.
  - intros (emb' & [= <-] & H). rewrite E2 in H. now injection H as ->.
  - discriminate.
  - intros (emb' & [= <-] & H). rewrite E2 in H. discriminate.
  - discriminate.
  - intros (emb' & H & _). discriminate.
Qed.

(** ** The run as a whole *)

(** Unfold a run whose upload was stored down to the outcomes of the
    library calls, one case for each way the run can go. *)
Ltac run_cases w tmp_path Ht :=
  let errs := fresh "errs" in
  let text := fresh "text" in
  let Hx := fresh "Hx" in
  let Herrs := fresh "Herrs" in
  unfold run, process, summary_block, summarize, get_vectorstore, show_summary,
    getitem, bind, try_except, st, ext, ret, raise;
  rewrite ?Ht; cbn [app fst snd];
  destruct (get_pdf_text_shape w tmp_path) as (errs & text & Hx & Herrs);
  rewrite ?Hx in *; cbn [app fst snd];
  destruct Herrs as [->|[? ->]];
  (destruct text as [|? ?]; cbn [app fst snd];
   [|match goal with
     | |- context [get_text_chunks ?t] =>
         destruct (get_text_chunks t) as [?chunks|?] eqn:?Hc; cbn [app fst snd]
     end;
     [repeat match goal with
             | |- context [HuggingFaceEmbeddings ?a ?b] =>
                 destruct (HuggingFaceEmbeddings a b) eqn:?; cbn [app fst snd]
             | |- context [FAISS_from_texts ?a ?b ?c] =>
                 destruct (FAISS_from_texts a b c) eqn:?; cbn [app fst snd]
             | |- context [ChatGroq ?a ?b] =>
                 destruct (ChatGroq a b) eqn:?; cbn [app fst snd]
             | |- context [RetrievalQA_from_chain_type ?a ?b ?c ?d] =>
                 destruct (RetrievalQA_from_chain_type a b c d) eqn:?; cbn [app fst snd]
             | |- context [invoke ?a ?b ?c] =>
                 destruct (invoke a b c) eqn:?; cbn [app fst snd]
             | |- context [dict_get ?a ?b] =>
                 destruct (dict_get a b) as [[|? ?]|] eqn:?;
                 cbn [app fst snd truthy]
             end|]]).

Ltac not_generic H :=
  first [discriminate H
        | injection H as H; vm_compute in H; discriminate H].

(** X6. The message of the outer handler, "An error occurred", is shown
    exactly when the upload cannot be stored in a temporary file: every
    failure after that has a handler of its own. *)
Theorem generic_error_iff_upload_not_stored (w : world) (upload : list N) :
  (exists ev, In ev (fst (run w (Some upload))) /\ is_generic_error ev)
  <-> exists e, NamedTemporaryFile_write w upload = Raises e.
Proof.
  destruct (NamedTemporaryFile_write w upload) as [tmp_path|e0] eqn:Ht.
  - split; [|intros [e H]; discriminate H].
    intros (ev & HIn & e & ->). exfalso. revert HIn.
    run_cases w tmp_path Ht; intros HIn; cbn [In] in HIn;
      repeat (destruct HIn as [HIn|HIn]; [not_generic HIn|]); try contradiction.
    all: destruct (get_text_chunks_windows (c :: text)) as (ws & E & _);
      rewrite E in Hc; discriminate Hc.
  - split; [intros _; now exists e0|]. intros _.
    exists (UI (st_error (py "An error occurred: " ++ exn_msg e0))).
    unfold run, process, bind, try_except, st. rewrite Ht. cbn.
    split; [now left|now exists e0].
Qed.

(** X7. Once the upload is stored, the library calls of the run are an
    initial part of the script's fixed sequence: open the stored file,
    split the extracted text, load the embedding model, index the chunks
    of that text, build the client and the chain, send the extracted
    text as the query.  No call is made out of order or twice, and none
    on other data. *)
Theorem calls_follow_pipeline
  (w : world) (upload : list N) (tmp_path : str) (log : list event) (raw_text : str) :
  NamedTemporaryFile_write w upload = Returns tmp_path ->
  get_pdf_text w tmp_path = (log, Returns raw_text) ->
  exists chunks k,
    get_text_chunks raw_text = Returns chunks
    /\ filter is_ext (fst (run w (Some upload)))
       = firstn k (pipeline_calls tmp_path raw_text chunks).
Proof.
  intros Ht Hx0.
  destruct (get_text_chunks_windows raw_text) as (ws & E & _).
  exists (chunks_of [LF] ws). revert E. generalize (chunks_of [LF] ws). intros chunks E.
  cut (exists k, filter is_ext (fst (run w (Some upload)))
                 = firstn k (pipeline_calls tmp_path raw_text chunks)).
  { intros [k Hk]. exists k. auto. }
  run_cases w tmp_path Ht; injection Hx0 as <- <-; rewrite ?E in *;
    try match goal with H : Returns _ = Returns _ |- _ => injection H as <- end;
    try discriminate;
    cbn [filter is_ext app];
    first [ exists 1%nat; reflexivity | exists 2%nat; reflexivity
          | exists 3%nat; reflexivity | exists 4%nat; reflexivity
          | exists 5%nat; reflexivity | exists 6%nat; reflexivity
          | exists 7%nat; reflexivity ].
Qed.

Lemma calls_follow_pipeline_witness :
  exists chunks k,
    get_text_chunks (py "Hello world.") = Returns chunks
    /\ filter is_ext (fst (run hello_world (Some [])))
       = firstn k (pipeline_calls (py "/tmp/tmpa1b2c3.pdf") (py "Hello world.") chunks).
Proof.
  apply (calls_follow_pipeline hello_world [] (py "/tmp/tmpa1b2c3.pdf")
           [Ext (call_fitz_open (py "/tmp/tmpa1b2c3.pdf"))] (py "Hello world.")).
  - reflexivity.
  - reflexivity.
Defined.

(** X8. Once the upload is stored, a failure after the extraction ends the
    run: either the run reports no error beyond those of the extraction,
    or it reports exactly one more, that report is the last thing the
    run does, and no summary is shown. *)
Theorem late_error_ends_run
  (w : world) (upload : list N) (tmp_path : str) (log : list event) (raw_text : str) :
  NamedTemporaryFile_write w upload = Returns tmp_path ->
  get_pdf_text w tmp_path = (log, Returns raw_text) ->
  filter is_error (fst (run w (Some upload))) = filter is_error log
  \/ (is_error (last (fst (run w (Some upload))) (Ext (call_fitz_open tmp_path))) = true
      /\ filter is_error (removelast (fst (run w (Some upload)))) = filter is_error log
      /\ none_of is_summary_shown (fst (run w (Some upload)))).
Proof.
  intros Ht Hx0. unfold none_of.
  run_cases w tmp_path Ht; injection Hx0 as <- <-;
    first [ left; reflexivity | right; repeat split; reflexivity ].
Qed.

Lemma late_error_ends_run_witness :
  filter is_error (fst (run no_embeddings_world (Some [])))
  = filter is_error [Ext (call_fitz_open (py "/tmp/tmpa1b2c3.pdf"))]
  \/ (is_error (last (fst (run no_embeddings_world (Some [])))
                  (Ext (call_fitz_open (py "/tmp/tmpa1b2c3.pdf")))) = true
      /\ filter is_error (removelast (fst (run no_embeddings_world (Some []))))
         = filter is_error [Ext (call_fitz_open (py "/tmp/tmpa1b2c3.pdf"))]
      /\ none_of is_summary_shown (fst (run no_embeddings_world (Some [])))).
Proof.
  apply (late_error_ends_run no_embeddings_world [] (py "/tmp/tmpa1b2c3.pdf")
           [Ext (call_fitz_open (py "/tmp/tmpa1b2c3.pdf"))] (py "Hello world.")).
  - reflexivity.
  - reflexivity.
Defined.

(** ** A response without a result *)

(** X11. When the query returns a response that has no "result" entry, the
    lookup fails like any other step of the block: the key is reported
    in the error message, [None] is returned and nothing is shown. *)
Theorem summarize_missing_result
  (w : world) (vs : vectorstore) (raw_text : str) (l : llm) (c : chain) (response : dict) :
  ChatGroq w llm_args = Returns l ->
  RetrievalQA_from_chain_type w l vs prompt = Returns c ->
  invoke w c raw_text = Returns response ->
  dict_get response (py "result") = None ->
  summary_block w vs raw_text
  = ([Ext (call_ChatGroq llm_args);
      Ext (call_RetrievalQA_from_chain_type prompt);
      Ext (call_invoke raw_text);
      UI (st_error (py "Error generating summary: " ++ py "'result'"))],
     Returns tt).
Proof.
  intros Hg Hq Hi Hr.
  unfold summary_block, summarize, getitem, bind, ext, try_except, raise.
  rewrite Hg, Hq, Hi, Hr. reflexivity.
Qed.

Lemma summarize_missing_result_witness :
  summary_block malformed_answer_world (Vectorstore 0) (py "Hello world.")
  = ([Ext (call_ChatGroq llm_args);
      Ext (call_RetrievalQA_from_chain_type prompt);
      Ext (call_invoke (py "Hello world."));
      UI (st_error (py "Error generating summary: " ++ py "'result'"))],
     Returns tt).
Proof.
  apply (summarize_missing_result malformed_answer_world (Vectorstore 0)
           (py "Hello world.") (Llm 0) (Chain 0) [(py "query", py "Hello world.")]);
    reflexivity.
Defined.

(** ** The credentials *)

Lemma str_eqb_eq (a b : str) : str_eqb a b = true -> a = b.
Proof. unfold str_eqb. destruct (list_eq_dec N.eq_dec a b); [auto|discriminate]. Qed.

(** Writing back the value a key already has changes nothing. *)
Lemma dict_set_same (d : dict) (key value : str) :
  dict_get d key = Some value -> dict_set d key value = d.
Proof.
  induction d as [|[k v] d IH]; cbn [dict_get dict_set]; [discriminate|].
  destruct (str_eqb k key) eqn:E.
  - now intros [= ->].
  - intros H. now rewrite IH.
Qed.

(** X12. Whenever the start-up code runs to its end, the environment is what
    it was: writing the API key back stores the value that was read. *)
Theorem startup_keeps_environ
  (login : str -> outcome unit) (environ environ' : dict) :
  snd (startup login environ) = Returns environ' -> environ' = environ.
Proof.
  unfold startup.
  destruct (dict_get environ (py "HUGGINGFACE_TOKEN")) as [[|a t]|];
    cbn [truthy negb orb];
    try destruct (login _);
    destruct (dict_get environ (py "GROQ_API_KEY")) as [[|b k]|] eqn:G;
    cbn [truthy negb orb snd]; intros H; try discriminate H;
    injection H as <-; try reflexivity; now apply dict_set_same.
Qed.

Lemma startup_keeps_environ_witness : full_environ = full_environ.
Proof.
  apply (startup_keeps_environ (fun _ => Returns tt) full_environ full_environ).
  reflexivity.
Defined.

(** X13. The warning is shown exactly when one of the two tokens is absent or
    empty, whatever [login] does. *)
Theorem startup_warns_iff_unset (login : str -> outcome unit) (environ : dict) :
  In (st_warning
        (py "Please set the HUGGINGFACE_TOKEN and GROQ_API_KEY environment variables."))
     (fst (startup login environ))
  <-> unset environ (py "HUGGINGFACE_TOKEN") \/ unset environ (py "GROQ_API_KEY").
Proof.
  unfold startup, unset.
  destruct (dict_get environ (py "HUGGINGFACE_TOKEN")) as [[|a t]|];
    cbn [truthy negb orb];
    try destruct (login _);
    destruct (dict_get environ (py "GROQ_API_KEY")) as [[|b k]|];
    cbn [truthy negb orb fst app In];
    split; intros H; auto;
    repeat (destruct H as [H|H]); try discriminate H; contradiction.
Qed.

(** X14. A failed login is not caught: the start-up code raises the same
    exception, after the warning if one was due, and goes no further. *)
Theorem startup_login_failure
  (login : str -> outcome unit) (environ : dict) (a : char) (token : str) (e : exn) :
  dict_get environ (py "HUGGINGFACE_TOKEN") = Some (a :: token) ->
  login (a :: token) = Raises e ->
  snd (startup login environ) = Raises e
  /\ last (fst (startup login environ)) (st_warning []) = call_login (a :: token).
Proof.
  intros H L. unfold startup. rewrite H. cbn [truthy negb orb]. rewrite L.
  destruct (truthy (dict_get environ (py "GROQ_API_KEY"))); cbn; auto.
Qed.

Lemma startup_login_failure_witness :
  snd (startup (fun _ => Raises (Exception (py "Invalid token"))) full_environ)
  = Raises (Exception (py "Invalid token"))
  /\ last (fst (startup (fun _ => Raises (Exception (py "Invalid token"))) full_environ))
       (st_warning [])
     = call_login (N_of_ascii "h" :: py "f_abc").
Proof.
  apply (startup_login_failure (fun _ => Raises (Exception (py "Invalid token")))
           full_environ (N_of_ascii "h") (py "f_abc") (Exception (py "Invalid token")));
    reflexivity.
Defined.

(** ** More on the chunks *)

Lemma lstrip_hd (s : str) (a : char) (r : str) :
  lstrip s = a :: r -> isspace a = false.
Proof.
  induction s as [|c s IH]; cbn [lstrip]; [discriminate|].
  destruct (isspace c) eqn:E; [exact IH|]. now intros [= <- _].
Qed.

Lemma lstrip_is_suffix (s : str) : is_suffix (lstrip s) s.
Proof.
  induction s as [|c s IH]; cbn [lstrip]; [apply is_suffix_refl|].
  destruct (isspace c); [now apply is_suffix_cons|apply is_suffix_refl].
Qed.

(** A non-empty stripped string starts and ends with a character that is
    not white space. *)
Lemma strip_ends (s : str) :
  strip s <> [] ->
  isspace (hd 0%N (strip s)) = false /\ isspace (last (strip s) 0%N) = false.
Proof.
  unfold strip, rstrip. intros NE.
  destruct (lstrip (rev (lstrip s))) as [|a r] eqn:X; [now contradiction NE|].
  pose proof (lstrip_hd _ _ _ X) as Ha.
  destruct (lstrip_is_suffix (rev (lstrip s))) as [p P]. rewrite X in P.
  apply (f_equal (@rev char)) in P. rewrite rev_involutive, rev_app_distr in P.
  split.
  - destruct (rev (a :: r)) as [|b u] eqn:R; [now contradiction NE|].
    cbn [hd]. cbn [app] in P. now apply (lstrip_hd s b (u ++ rev p)).
  - cbn [rev]. now rewrite last_last.
Qed.

Lemma in_chunks_of separator (ws : list window) (c : str) :
  In c (chunks_of separator ws) ->
  exists w, In w ws
            /\ CharacterTextSplitter._join_docs (window_lines w) separator = Some c.
Proof.
  unfold chunks_of. rewrite in_flat_map. intros (w & Hw & Hc). exists w.
  split; [exact Hw|].
  destruct (CharacterTextSplitter._join_docs (window_lines w) separator) as [c'|];
    [|contradiction].
  destruct Hc as [->|[]]. reflexivity.
Qed.

(** X15. No chunk is empty, and no chunk starts or ends with white space. *)
Theorem chunks_nonempty_stripped (text : str) (chunks : list str) (c : str) :
  get_text_chunks text = Returns chunks ->
  In c chunks ->
  c <> []
  /\ isspace (hd 0%N c) = false
  /\ isspace (last c 0%N) = false.
Proof.
  intros E Hc.
  destruct (get_text_chunks_windows text) as (ws & E' & _).
  rewrite E in E'. injection E' as ->.
  apply in_chunks_of in Hc. destruct Hc as (w & _ & J).
  unfold CharacterTextSplitter._join_docs in J.
  destruct (strip (join [LF] (window_lines w))) as [|a r] eqn:S; [discriminate|].
  injection J as <-.
  assert (NE : strip (join [LF] (window_lines w)) <> []) by (rewrite S; discriminate).
  apply strip_ends in NE. rewrite S in NE. split; [discriminate|exact NE].
Qed.

Lemma chunks_nonempty_stripped_witness :
  with_newlines "a|b" <> []
  /\ isspace (hd 0%N (with_newlines "a|b")) = false
  /\ isspace (last (with_newlines "a|b") 0%N) = false.
Proof.
  apply (chunks_nonempty_stripped (with_newlines " a||b ") [with_newlines "a|b"]).
  - reflexivity.
  - now left.
Defined.

(** A text without a newline is one piece. *)
Lemma re_split_no_separator (text : str) :
  ~ In LF text ->
  forall piece, CharacterTextSplitter.re_split [LF] 0 piece text = [rev piece ++ text].
Proof.
  induction text as [|c rest IH]; intros NI piece.
  - cbn. now rewrite app_nil_r.
  - cbn [CharacterTextSplitter.re_split starts_with].
    destruct (N.eqb_spec LF c) as [<-|Hne]; [exfalso; apply NI; now left|].
    cbn [andb]. rewrite IH; [|intros H; apply NI; now right].
    cbn [rev]. now rewrite <- app_assoc.
Qed.

(** X16. A text without a newline is never cut, however long it is: the
    chunker returns the stripped text as the only chunk, or no chunk
    when nothing is left after stripping. *)
Theorem chunks_of_single_line (text : str) :
  ~ In LF text ->
  get_text_chunks text
  = Returns match strip text with
            | [] => []
            | c :: s => [c :: s]
            end.
Proof.
  intros NI.
  unfold get_text_chunks, CharacterTextSplitter.split_text,
    CharacterTextSplitter._split_text_with_regex.
  cbn [CharacterTextSplitter._separator splitter].
  rewrite (re_split_no_separator text NI []). cbn [rev app filter].
  destruct text as [|a text]; [reflexivity|].
  cbn [length Nat.eqb negb].
  unfold CharacterTextSplitter._merge_splits. cbn [CharacterTextSplitter.merge_loop].
  unfold CharacterTextSplitter.merge_step.
  cbn [CharacterTextSplitter.current_doc CharacterTextSplitter.total
       CharacterTextSplitter.docs].
  change (len (@nil str) >? 0) with false. cbn iota.
  destruct (0 + len (a :: text) + 0 >? CharacterTextSplitter._chunk_size splitter);
    cbn [CharacterTextSplitter.current_doc CharacterTextSplitter.docs app];
    unfold CharacterTextSplitter._join_docs; cbn [join];
    destruct (strip (a :: text)); reflexivity.
Qed.

Lemma chunks_of_single_line_witness :
  get_text_chunks (repeat 97%N 1001)
  = Returns match strip (repeat 97%N 1001) with
            | [] => []
            | c :: s => [c :: s]
            end.
Proof.
  apply (chunks_of_single_line (repeat 97%N 1001)).
  intros H. apply repeat_spec in H. discriminate H.
Defined.

Example long_line_exceeds_size :
  get_text_chunks (repeat 97%N 1001) = Returns [repeat 97%N 1001]
  /\ len (repeat 97%N 1001) = 1001.
Proof. split; vm_compute; reflexivity. Qed.

Lemma is_prefix_len {A : Type} (s l : list A) : is_prefix s l -> len s <= len l.
Proof. intros [q ->]. rewrite len_app. pose proof (len_nonneg q). lia. Qed.

Lemma join_filter_le separator (f : str -> bool) (l : list str) :
  len (join separator (filter f l)) <= len (join separator l).
Proof.
  induction l as [|d l IH]; cbn [filter]; [lia|].
  pose proof (len_nonneg separator). pose proof (len_nonneg d).
  pose proof (len_nonneg (join separator (filter f l))).
  destruct (f d); rewrite !join_cons.
  - assert (len (filter f l) <= len l).
    { unfold len. pose proof (filter_length_le f l). lia. }
    lens.
  - destruct (len (d :: l) >? 1); lia.
Qed.

Section FitsFacts.
Import CharacterTextSplitter.
Variable self : t.
Variable separator : str.

(** As long as everything fits in one chunk, the loop only appends. *)
Lemma merge_loop_fits (splits : list str) :
  forall ds cur,
    len (join separator (cur ++ splits)) <= _chunk_size self ->
    merge_loop self separator splits
      {| docs := ds; current_doc := cur; total := len (join separator cur) |}
    = Returns {| docs := ds; current_doc := cur ++ splits;
                 total := len (join separator (cur ++ splits)) |}.
Proof.
  induction splits as [|d rest IH]; intros ds cur B.
  - cbn [merge_loop]. now rewrite app_nil_r.
  - cbn [merge_loop]. unfold merge_step. cbn [docs current_doc total].
    assert (S : len (join separator (cur ++ [d])) <= _chunk_size self).
    { etransitivity; [|exact B].
      replace (cur ++ d :: rest) with ((cur ++ [d]) ++ rest)
        by (now rewrite <- app_assoc).
      apply is_prefix_len, join_prefix. }
    rewrite join_snoc in S.
    assert (C : (len (join separator cur) + len d
                 + (if len cur >? 0 then separator_len separator else 0)
                 >? _chunk_size self) = false).
    { unfold separator_len. lens. }
    rewrite C. cbn [docs current_doc total].
    replace (len (join separator cur) + len d
             + (if len (cur ++ [d]) >? 1 then separator_len separator else 0))
      with (len (join separator (cur ++ [d])))
      by (rewrite join_snoc; reflexivity).
    rewrite IH; replace ((cur ++ [d]) ++ rest) with (cur ++ d :: rest)
      by (now rewrite <- app_assoc); auto.
Qed.
End FitsFacts.

Lemma short_text_chunks (text : str) :
  len text <= 1000 ->
  get_text_chunks text
  = Returns match CharacterTextSplitter._join_docs (segments text) [LF] with
            | Some c => [c]
            | None => []
            end.
Proof.
  intros B.
  unfold get_text_chunks, CharacterTextSplitter.split_text,
    CharacterTextSplitter._merge_splits.
  change (CharacterTextSplitter._split_text_with_regex text
            (CharacterTextSplitter._separator splitter)) with (segments text).
  change (CharacterTextSplitter._separator splitter) with [LF].
  change 0 with (len (join [LF] [])) at 1.
  rewrite merge_loop_fits.
  - cbn [app CharacterTextSplitter.docs CharacterTextSplitter.current_doc].
    destruct (CharacterTextSplitter._join_docs (segments text) [LF]); reflexivity.
  - cbn [app]. change (CharacterTextSplitter._chunk_size splitter) with 1000.
    rewrite segments_lines.
    etransitivity; [apply join_filter_le|]. now rewrite lines_join.
Qed.

(** ** White space only *)

Lemma lstrip_all_space (s : str) : all_space s -> lstrip s = [].
Proof.
  induction 1 as [|c s Hc _ IH]; cbn [lstrip]; [reflexivity|]. now rewrite Hc.
Qed.

Lemma strip_all_space (s : str) : all_space s -> strip s = [].
Proof. intros H. unfold strip, rstrip. now rewrite (lstrip_all_space s H). Qed.

Lemma join_all_space (l : list str) :
  Forall all_space l -> all_space (join [LF] l).
Proof.
  induction 1 as [|d l Hd _ IH]; [constructor|].
  destruct l as [|d' l]; [exact Hd|].
  change (join [LF] (d :: d' :: l)) with (d ++ [LF] ++ join [LF] (d' :: l)).
  apply Forall_app. split; [exact Hd|]. apply Forall_app. split; [|exact IH].
  constructor; [reflexivity|constructor].
Qed.

Lemma join_all_space_inv (l : list str) :
  all_space (join [LF] l) -> Forall all_space l.
Proof.
  induction l as [|d l IH]; intros H; [constructor|].
  destruct l as [|d' l]; [constructor; [exact H|constructor]|].
  change (join [LF] (d :: d' :: l)) with (d ++ [LF] ++ join [LF] (d' :: l)) in H.
  apply Forall_app in H. destruct H as [Hd H].
  apply Forall_app in H. destruct H as [_ H].
  constructor; [exact Hd|now apply IH].
Qed.

(** The lines of every window of a chain are lines that were carried
    from [prev] or are fresh. *)
Lemma chained_lines (P : str -> Prop) overlap separator (ws : list window) :
  forall prev,
    chained overlap separator prev ws ->
    Forall P prev ->
    Forall P (concat (map snd ws)) ->
    Forall (fun w => Forall P (window_lines w)) ws.
Proof.
  induction ws as [|[c f] ws IH]; intros prev Ch Hp Hf; [constructor|].
  cbn [chained fst snd window_lines] in Ch. destruct Ch as ([p ->] & _ & Ch).
  cbn [map concat snd] in Hf. apply Forall_app in Hf. destruct Hf as [Hf Hr].
  apply Forall_app in Hp. destruct Hp as [_ Hc].
  assert (W : Forall P (window_lines (c, f))).
  { unfold window_lines. cbn [fst snd]. apply Forall_app. now split. }
  constructor; [exact W|]. now apply (IH (window_lines (c, f))).
Qed.

Lemma all_space_chunks (text : str) :
  all_space text -> get_text_chunks text = Returns [].
Proof.
  intros H.
  destruct (get_text_chunks_windows text) as (ws & E & F & Ch).
  rewrite E. f_equal.
  assert (S : Forall all_space (segments text)).
  { rewrite segments_lines. apply Forall_forall. intros s Hs.
    apply filter_In in Hs. destruct Hs as [Hs _].
    rewrite <- (lines_join text) in H. apply join_all_space_inv in H.
    rewrite Forall_forall in H. now apply H. }
  rewrite <- F in S.
  pose proof (chained_lines all_space 200 [LF] ws [] Ch (Forall_nil _) S) as W.
  clear -W. unfold chunks_of.
  induction W as [|w ws Hw _ IH]; [reflexivity|].
  cbn [flat_map]. rewrite IH. unfold CharacterTextSplitter._join_docs.
  now rewrite (strip_all_space _ (join_all_space _ Hw)).
Qed.

(** X18. A text of white space only has no chunks. *)
Theorem whitespace_text_no_chunks (text : str) :
  all_space text -> get_text_chunks text = Returns [].
Proof. apply all_space_chunks. Qed.

Lemma whitespace_text_no_chunks_witness :
  get_text_chunks (with_newlines "  | |") = Returns [].
Proof.
  apply (whitespace_text_no_chunks (with_newlines "  | |")).
  repeat constructor.
Defined.

(** X19. White space is text to the handler: when the extracted text is not
    empty but all white space, the run does not stop at the "no text"
    message; it goes on to the embedding model with an empty list of
    chunks, and whatever it indexes, it indexes that empty list. *)
Theorem whitespace_text_passes_gate
  (w : world) (upload : list N) (tmp_path : str) (log : list event) (raw_text : str) :
  NamedTemporaryFile_write w upload = Returns tmp_path ->
  get_pdf_text w tmp_path = (log, Returns raw_text) ->
  raw_text <> [] ->
  all_space raw_text ->
  exists k,
    (3 <= k)%nat
    /\ filter is_ext (fst (run w (Some upload)))
       = firstn k (pipeline_calls tmp_path raw_text []).
Proof.
  intros Ht Hx0 NE Sp.
  pose proof (all_space_chunks raw_text Sp) as E.
  run_cases w tmp_path Ht; injection Hx0 as <- <-; try contradiction;
    rewrite E in *;
    try match goal with H : Returns _ = Returns _ |- _ => injection H as <- end;
    try discriminate;
    cbn [filter is_ext app];
    first [ exists 3%nat; split; [lia|reflexivity]
          | exists 4%nat; split; [lia|reflexivity]
          | exists 5%nat; split; [lia|reflexivity]
          | exists 6%nat; split; [lia|reflexivity]
          | exists 7%nat; split; [lia|reflexivity] ].
Qed.

Lemma whitespace_text_passes_gate_witness :
  exists k,
    (3 <= k)%nat
    /\ filter is_ext (fst (run no_index_world (Some [])))
       = firstn k (pipeline_calls (py "/tmp/tmpa1b2c3.pdf") (py "   ") []).
Proof.
  apply (whitespace_text_passes_gate no_index_world [] (py "/tmp/tmpa1b2c3.pdf")
           [Ext (call_fitz_open (py "/tmp/tmpa1b2c3.pdf"))] (py "   ")).
  - reflexivity.
  - reflexivity.
  - discriminate.
  - repeat constructor.
Defined.

(** ** What the page shows *)

(** X9. An extraction that returns some text is treated as a success even
    when it reported an error: the run shows the number of characters
    and goes on to split the text. *)
Theorem extracted_text_is_processed
  (w : world) (upload : list N) (tmp_path : str) (log : list event) (raw_text : str) :
  NamedTemporaryFile_write w upload = Returns tmp_path ->
  get_pdf_text w tmp_path = (log, Returns raw_text) ->
  raw_text <> [] ->
  exists rest,
    fst (run w (Some upload))
    = UI (st_spinner (magnifier :: py " Extracting text from PDF...")) :: log
      ++ UI (st_success (check_mark :: py " Extracted " ++ str_of_nat (length raw_text)
                           ++ py " characters from the PDF."))
      :: UI (st_spinner (link_sign :: py " Splitting and indexing text..."))
      :: Ext (call_split_text raw_text) :: rest.
Proof.
  intros Ht Hx0 NE.
  run_cases w tmp_path Ht; injection Hx0 as <- <-; try contradiction;
    cbn [app]; eexists; reflexivity.
Qed.

Lemma extracted_text_is_processed_witness :
  exists rest,
    fst (run torn_pdf_world (Some []))
    = UI (st_spinner (magnifier :: py " Extracting text from PDF..."))
      :: [Ext (call_fitz_open (py "/tmp/tmpa1b2c3.pdf"));
          UI (st_error (py "Error extracting text from PDF: " ++ py "cannot load page"))]
      ++ UI (st_success (check_mark :: py " Extracted " ++ str_of_nat (length (py "A"))
                           ++ py " characters from the PDF."))
      :: UI (st_spinner (link_sign :: py " Splitting and indexing text..."))
      :: Ext (call_split_text (py "A")) :: rest.
Proof.
  apply (extracted_text_is_processed torn_pdf_world [] (py "/tmp/tmpa1b2c3.pdf")).
  - reflexivity.
  - reflexivity.
  - discriminate.
Defined.

(** X10. Whatever text the page writes as the summary is the non-empty value
    found under "result" in the model's response to the query made of
    the whole extracted text, over the index of that text's chunks; and
    the download offered with it carries the same text. *)
Theorem shown_summary_is_model_answer
  (w : world) (upload : list N) (tmp_path : str) (log : list event)
  (raw_text s : str) :
  NamedTemporaryFile_write w upload = Returns tmp_path ->
  get_pdf_text w tmp_path = (log, Returns raw_text) ->
  In (UI (st_write s)) (fst (run w (Some upload))) ->
  s <> []
  /\ In (UI (st_download_button (inbox :: py " Download Summary") s
               (py "summary.txt") (py "text/plain")))
        (fst (run w (Some upload)))
  /\ exists chunks emb vs l c response,
      get_text_chunks raw_text = Returns chunks
      /\ HuggingFaceEmbeddings w embedding_model = Returns emb
      /\ FAISS_from_texts w chunks emb = Returns vs
      /\ ChatGroq w llm_args = Returns l
      /\ RetrievalQA_from_chain_type w l vs prompt = Returns c
      /\ invoke w c raw_text = Returns response
      /\ dict_get response (py "result") = Some s.
Proof.
  intros Ht Hx0. revert s.
  run_cases w tmp_path Ht; injection Hx0 as <- <-; intros s HIn;
    cbn [In] in HIn;
    repeat (destruct HIn as [HIn|HIn]; [try discriminate HIn|]);
    try contradiction;
    injection HIn as <-;
    (split; [discriminate|]);
    (split; [cbn [In]; tauto|]);
    repeat eexists; eassumption.
Qed.

Lemma shown_summary_is_model_answer_witness :
  py "A summary." <> []
  /\ In (UI (st_download_button (inbox :: py " Download Summary") (py "A summary.")
               (py "summary.txt") (py "text/plain")))
        (fst (run hello_world (Some [])))
  /\ exists chunks emb vs l c response,
      get_text_chunks (py "Hello world.") = Returns chunks
      /\ HuggingFaceEmbeddings hello_world embedding_model = Returns emb
      /\ FAISS_from_texts hello_world chunks emb = Returns vs
      /\ ChatGroq hello_world llm_args = Returns l
      /\ RetrievalQA_from_chain_type hello_world l vs prompt = Returns c
      /\ invoke hello_world c (py "Hello world.") = Returns response
      /\ dict_get response (py "result") = Some (py "A summary.").
Proof.
  apply (shown_summary_is_model_answer hello_world [] (py "/tmp/tmpa1b2c3.pdf")
           [Ext (call_fitz_open (py "/tmp/tmpa1b2c3.pdf"))] (py "Hello world.")).
  - reflexivity.
  - reflexivity.
  - change (fst (run hello_world (Some [])))
      with [UI (st_spinner (magnifier :: py " Extracting text from PDF..."));
            Ext (call_fitz_open (py "/tmp/tmpa1b2c3.pdf"));
            UI (st_success (check_mark :: py " Extracted 12 characters from the PDF."));
            UI (st_spinner (link_sign :: py " Splitting and indexing text..."));
            Ext (call_split_text (py "Hello world."));
            Ext (call_HuggingFaceEmbeddings embedding_model);
            Ext (call_FAISS_from_texts [py "Hello world."]);
            UI (st_success (check_mark :: py " Vectorstore created successfully."));
            UI (st_spinner (robot :: py " Generating blog-style summary..."));
            Ext (call_ChatGroq llm_args);
            Ext (call_RetrievalQA_from_chain_type prompt);
            Ext (call_invoke (py "Hello world."));
            UI (st_subheader (memo :: py " Blog Summary"));
            UI (st_write (py "A summary."));
            UI (st_download_button (inbox :: py " Download Summary") (py "A summary.")
                  (py "summary.txt") (py "text/plain"))].
    cbn [In]. tauto.
Defined.

(** * The chunker against lines defined without it *)

(** ** Contiguous parts *)

Lemma is_infix_refl {A : Type} (l : list A) : is_infix l l.
Proof. exists [], []. now rewrite app_nil_r. Qed.

Lemma is_infix_trans {A : Type} (a b c : list A) :
  is_infix a b -> is_infix b c -> is_infix a c.
Proof.
  intros (p1 & q1 & ->) (p2 & q2 & ->). exists (p2 ++ p1), (q1 ++ q2).
  now rewrite <- !app_assoc.
Qed.

Lemma strip_infix (s : str) : is_infix (strip s) s.
Proof.
  unfold strip, rstrip.
  destruct (lstrip_is_suffix s) as [p P].
  destruct (lstrip_is_suffix (rev (lstrip s))) as [q Q].
  apply (f_equal (@rev char)) in Q. rewrite rev_involutive, rev_app_distr in Q.
  exists p, (rev q). rewrite <- Q. exact P.
Qed.

Lemma newline_free_infix (c d : str) :
  is_infix c d -> newline_free d -> newline_free c.
Proof.
  intros (p & q & ->) NF H. apply NF.
  apply in_or_app. right. apply in_or_app. now left.
Qed.

Lemma line_infix separator (l : str) (ls : list str) :
  In l ls -> is_infix l (join separator ls).
Proof.
  induction ls as [|d rest IH]; [intros []|].
  destruct rest as [|d' rest].
  - intros [<-|[]]. apply is_infix_refl.
  - change (join separator (d :: d' :: rest))
      with (d ++ separator ++ join separator (d' :: rest)).
    intros [<-|H].
    + exists [], (separator ++ join separator (d' :: rest)). reflexivity.
    + destruct (IH H) as (p & q & E). rewrite E.
      exists (d ++ separator ++ p), q. now rewrite <- !app_assoc.
Qed.

(** ** The lines are the newline-free pieces between the newlines *)

Lemma lines_newline_free_acc (text : str) :
  forall piece,
    newline_free piece ->
    Forall newline_free (CharacterTextSplitter.re_split [LF] 0 piece text).
Proof.
  induction text as [|c rest IH]; intros piece NF.
  - cbn. constructor; [|constructor]. intros H. apply NF. now apply in_rev.
  - cbn [CharacterTextSplitter.re_split starts_with length Nat.sub].
    destruct (N.eqb_spec LF c) as [<-|Hne]; cbn [andb].
    + constructor.
      * intros H. apply NF. now apply in_rev.
      * apply IH. intros [].
    + apply IH. intros [H|H]; [now apply Hne|now apply NF].
Qed.

Lemma lines_newline_free (text : str) : Forall newline_free (lines text).
Proof. apply lines_newline_free_acc. intros []. Qed.

(** A newline-free line followed by the rest of a join is cut off whole. *)
Lemma re_split_line (d : str) :
  newline_free d ->
  forall piece,
    CharacterTextSplitter.re_split [LF] 0 piece d = [rev piece ++ d]
    /\ forall tail,
        CharacterTextSplitter.re_split [LF] 0 piece (d ++ LF :: tail)
        = (rev piece ++ d) :: CharacterTextSplitter.re_split [LF] 0 [] tail.
Proof.
  induction d as [|c d IH]; intros NF piece.
  - split.
    + cbn. now rewrite app_nil_r.
    + intros tail. cbn [app CharacterTextSplitter.re_split starts_with length Nat.sub].
      rewrite N.eqb_refl. cbn [andb]. now rewrite app_nil_r.
  - assert (Hc : LF <> c) by (intros E; apply NF; now left).
    assert (NF' : newline_free d) by (intros H; apply NF; now right).
    destruct (IH NF' (c :: piece)) as [I1 I2].
    cbn [app CharacterTextSplitter.re_split starts_with].
    destruct (N.eqb_spec LF c) as [E|_]; [contradiction|]. cbn [andb].
    cbn [rev] in I1, I2. rewrite <- !app_assoc in I1. split.
    + rewrite I1. reflexivity.
    + intros tail. rewrite I2. now rewrite <- app_assoc.
Qed.

(** Splitting undoes joining: a text has one list of lines only. *)
Lemma lines_of_join (ls : list str) :
  Forall newline_free ls -> ls <> [] -> lines (join [LF] ls) = ls.
Proof.
  induction 1 as [|d rest NF _ IH]; intros NE; [contradiction|].
  unfold lines in *. destruct rest as [|d' rest].
  - cbn [join]. now destruct (re_split_line d NF []) as [-> _].
  - change (join [LF] (d :: d' :: rest)) with (d ++ LF :: join [LF] (d' :: rest)).
    destruct (re_split_line d NF []) as [_ ->]. cbn [rev app].
    rewrite IH; [reflexivity|discriminate].
Qed.

Lemma segments_of_join (ls : list str) :
  Forall newline_free ls -> segments (join [LF] ls) = filter nonempty ls.
Proof.
  intros NF. rewrite segments_lines. destruct ls as [|d rest]; [reflexivity|].
  rewrite lines_of_join; [reflexivity|exact NF|discriminate].
Qed.

Lemma chunks_of_chunk_texts (ws : list window) : chunks_of [LF] ws = chunk_texts ws.
Proof.
  unfold chunks_of, chunk_texts.
  induction ws as [|w ws IH]; [reflexivity|].
  cbn [flat_map map filter]. rewrite IH.
  unfold CharacterTextSplitter._join_docs.
  destruct (strip (join [LF] (window_lines w))); reflexivity.
Qed.

(** The chunks, stated on lines that are fixed by the text alone: the
    text is the newline-join of newline-free lines, the windows take the
    non-empty ones in order, each window starting with at most 200
    characters of lines from the end of the one before, and the chunks
    are the stripped joins of the windows, the empty ones left out. *)
Lemma get_text_chunks_pinned (text : str) :
  exists (ls : list str) (ws : list window),
    join [LF] ls = text
    /\ Forall newline_free ls
    /\ concat (map snd ws) = filter nonempty ls
    /\ chained 200 [LF] [] ws
    /\ get_text_chunks text = Returns (chunk_texts ws).
Proof.
  destruct (get_text_chunks_windows text) as (ws & E & F & Ch).
  exists (lines text), ws.
  split; [apply lines_join|]. split; [apply lines_newline_free|].
  split; [rewrite F; apply segments_lines|]. split; [exact Ch|].
  now rewrite <- chunks_of_chunk_texts.
Qed.

(** ** A chunk over the size is a single line *)

Section LongFacts.
Import CharacterTextSplitter.
Variable self : t.
Variable separator : str.
Variable all : list str.
Hypothesis overlap_nonneg : 0 <= _chunk_overlap self.

Lemma append_doc_long (ds cur : list str) (tot : Z) :
  Forall (fun c => len c <= _chunk_size self \/ exists d, In d all /\ c = strip d) ds ->
  tot = len (join separator cur) ->
  (tot <= _chunk_size self \/ exists d, cur = [d] /\ In d all) ->
  Forall (fun c => len c <= _chunk_size self \/ exists d, In d all /\ c = strip d)
    (append_doc ds (_join_docs cur separator)).
Proof.
  intros F -> B. unfold _join_docs.
  pose proof (len_strip (join separator cur)) as L.
  destruct (strip (join separator cur)) as [|a r] eqn:S; cbn [append_doc]; [exact F|].
  apply Forall_app. split; [exact F|]. constructor; [|constructor].
  destruct B as [B|(d & -> & Hd)].
  - left. lia.
  - right. exists d. split; [exact Hd|]. cbn [join] in S. now rewrite S.
Qed.

Lemma merge_step_long st d :
  long_inv self separator all st ->
  0 < len d -> In d all ->
  exists st', merge_step self separator st d = Returns st'
              /\ long_inv self separator all st'.
Proof.
  intros (Ht & Hne & Hb & Hds) Hd Hin.
  unfold merge_step.
  destruct (total st + len d
            + (if len (current_doc st) >? 0 then separator_len separator else 0)
            >? _chunk_size self) eqn:Big;
    [destruct (len (current_doc st) >? 0) eqn:NE|].
  - pose proof (append_doc_long (docs st) (current_doc st) (total st) Hds Ht Hb) as A.
    rewrite Ht.
    destruct (pop_while_spec self separator overlap_nonneg (len d) (current_doc st))
      as (cur' & E & [p S] & B & R).
    rewrite E. eexists. split; [reflexivity|].
    assert (Hne' : Forall (fun s => 0 < len s) cur').
    { rewrite S in Hne. apply Forall_app in Hne. tauto. }
    unfold long_inv. cbn [docs current_doc total].
    split; [rewrite join_snoc; unfold separator_len; lia|].
    split; [apply Forall_app; split; [exact Hne'|constructor; [lia|constructor]]|].
    split; [|exact A].
    destruct R as [R|R].
    + left. unfold separator_len. lens.
    + right. apply (join_nonempty separator _ Hne') in R. subst cur'.
      exists d. split; [reflexivity|exact Hin].
  - eexists. split; [reflexivity|].
    destruct (current_doc st) as [|x l] eqn:C; [|lens].
    unfold long_inv. cbn [docs current_doc total]. rewrite ?C, Ht.
    cbn [app join]. unfold separator_len.
    split; [lens|]. split; [constructor; [lia|constructor]|].
    split; [right; exists d; split; [reflexivity|exact Hin]|exact Hds].
  - eexists. split; [reflexivity|].
    unfold long_inv. cbn [docs current_doc total].
    split; [rewrite join_snoc, Ht; unfold separator_len; lia|].
    split; [apply Forall_app; split; [exact Hne|constructor; [lia|constructor]]|].
    split; [|exact Hds].
    left. unfold separator_len in *. lens.
Qed.

Lemma merge_loop_long splits :
  Forall (fun d => 0 < len d /\ In d all) splits ->
  forall st,
    long_inv self separator all st ->
    exists st', merge_loop self separator splits st = Returns st'
                /\ long_inv self separator all st'.
Proof.
  induction 1 as [|d rest [Hd Hin] _ IH]; intros st I; cbn [merge_loop].
  - exists st. auto.
  - destruct (merge_step_long st d I Hd Hin) as (st1 & -> & I1). apply IH, I1.
Qed.

(** Every chunk fits in the chunk size or is one piece, stripped. *)
Lemma merge_splits_long :
  0 <= _chunk_size self ->
  Forall (fun d => 0 < len d) all ->
  exists chunks,
    _merge_splits self separator all = Returns chunks
    /\ Forall (fun c => len c <= _chunk_size self \/ exists d, In d all /\ c = strip d)
         chunks.
Proof.
  intros Hs F.
  destruct (merge_loop_long all) with (st := {| docs := []; current_doc := []; total := 0 |})
    as (st & E & (Ht & _ & Hb & Hds)).
  { rewrite Forall_forall in *. intros d Hd. split; [now apply F|exact Hd]. }
  { unfold long_inv. cbn. repeat split; auto. }
  unfold _merge_splits. rewrite E. eexists. split; [reflexivity|].
  now apply (append_doc_long (docs st) (current_doc st) (total st)).
Qed.
End LongFacts.

Lemma get_text_chunks_long (text : str) :
  exists chunks,
    get_text_chunks text = Returns chunks
    /\ Forall (fun c => len c <= 1000
                        \/ exists d, In d (segments text) /\ c = strip d) chunks.
Proof.
  unfold get_text_chunks, CharacterTextSplitter.split_text.
  apply (merge_splits_long splitter [LF] (segments text)); cbn; try lia.
  apply segments_nonempty.
Qed.

(** ** The chunks of a text *)

(** C1. For every text, written as the newline-join of its newline-free
    lines, the chunker returns an ordered sequence of chunks that are the
    stripped newline-joins of windows over the non-empty lines, taken in
    order; each window starts with lines from the end of the window
    before it, at most 200 characters of them, and goes on with the
    lines that follow.  Every chunk is at most 1000 characters long,
    unless it is one single line of the text, stripped, that is itself
    longer than 1000 characters. *)
Theorem C1_chunk_size_and_overlap (text : str) :
  exists (ls : list str) (ws : list window),
    join [LF] ls = text
    /\ Forall newline_free ls
    /\ concat (map snd ws) = filter nonempty ls
    /\ chained 200 [LF] [] ws
    /\ get_text_chunks text = Returns (chunk_texts ws)
    /\ Forall (fun c => len c <= 1000
                        \/ exists l, In l ls /\ 1000 < len l /\ c = strip l)
         (chunk_texts ws).
Proof.
  destruct (get_text_chunks_pinned text) as (ls & ws & J & NF & F & Ch & E).
  exists ls, ws. repeat (split; [assumption|]).
  destruct (get_text_chunks_long text) as (chunks & E' & B).
  rewrite E in E'. injection E' as <-.
  rewrite <- J, (segments_of_join ls NF) in B.
  rewrite Forall_forall in *. intros c Hc.
  destruct (Z.leb_spec (len c) 1000) as [L|L]; [now left|].
  destruct (B c Hc) as [L'|(d & Hd & ->)]; [lia|].
  right. exists d. apply filter_In in Hd.
  split; [tauto|]. split; [|reflexivity].
  pose proof (len_strip d). lia.
Qed.

Example thirty_lines_chunks :
  exists c1 c2 c3 c4,
    get_text_chunks thirty_lines = Returns [c1; c2; c3; c4]
    /\ map (@length char) [c1; c2; c3; c4] = [999; 999; 999; 599]%nat
    /\ c1 = join [LF] (repeat (repeat 97%N 99) 10)
    /\ c4 = join [LF] (repeat (repeat 97%N 99) 6).
Proof. do 4 eexists. vm_compute. repeat split. Qed.

(** C2, amended. For every text, written as the newline-join of its
    newline-free lines, the chunker returns chunks in order; each chunk
    is the newline-join, stripped of surrounding white space, of a
    window of non-empty lines (a window that strips to nothing gives no
    chunk); each window starts with at most 200 characters of lines
    carried over from the end of the previous window, and the windows
    with the carried lines removed concatenate to exactly the non-empty
    lines of the text, in order. *)
Theorem C2_windows_reconstruct_segments (text : str) :
  exists (ls : list str) (ws : list window),
    join [LF] ls = text
    /\ Forall newline_free ls
    /\ get_text_chunks text
       = Returns (filter nonempty
                    (map (fun w => strip (join [LF] (fst w ++ snd w))) ws))
    /\ chained 200 [LF] [] ws
    /\ concat (map snd ws) = filter nonempty ls.
Proof.
  destruct (get_text_chunks_pinned text) as (ls & ws & J & NF & F & Ch & E).
  exists ls, ws. repeat split; assumption.
Qed.

(** X17. A text of at most 1000 characters gives at most one chunk:
    however the text is written as the newline-join of newline-free
    lines, the chunk is the newline-join of the non-empty ones,
    stripped, and there is no chunk when that is empty. *)
Theorem short_text_one_chunk (text : str) (ls : list str) :
  len text <= 1000 ->
  join [LF] ls = text ->
  Forall newline_free ls ->
  get_text_chunks text
  = Returns match strip (join [LF] (filter nonempty ls)) with
            | [] => []
            | c :: s => [c :: s]
            end.
Proof.
  intros B J NF. rewrite (short_text_chunks text B).
  rewrite <- J, (segments_of_join ls NF).
  unfold CharacterTextSplitter._join_docs.
  destruct (strip (join [LF] (filter nonempty ls))); reflexivity.
Qed.

Lemma short_text_one_chunk_witness :
  get_text_chunks (with_newlines " a||b ")
  = Returns match strip (join [LF] (filter nonempty [py " a"; []; py "b "])) with
            | [] => []
            | c :: s => [c :: s]
            end
  /\ strip (join [LF] (filter nonempty [py " a"; []; py "b "])) = with_newlines "a|b".
Proof.
  split; [|reflexivity].
  apply (short_text_one_chunk (with_newlines " a||b ") [py " a"; []; py "b "]).
  - vm_compute. discriminate.
  - reflexivity.
  - repeat constructor; intros H; vm_compute in H;
      repeat (destruct H as [H|H]; [discriminate H|]); exact H.
Defined.

(** ** An empty answer after a failed extraction *)

(** C10, at a PDF whose second page cannot be parsed and a model that
    answers with the empty text: the query returns, no summary is shown
    and no download is offered, but the run has reported an error, the
    one of the extraction it went on from. *)
Theorem C10_error_reported_after_torn_pdf :
  fst (run torn_pdf_empty_answer_world (Some []))
  = [UI (st_spinner (magnifier :: py " Extracting text from PDF..."));
     Ext (call_fitz_open (py "/tmp/tmpa1b2c3.pdf"));
     UI (st_error (py "Error extracting text from PDF: " ++ py "cannot load page"));
     UI (st_success (check_mark :: py " Extracted 1 characters from the PDF."));
     UI (st_spinner (link_sign :: py " Splitting and indexing text..."));
     Ext (call_split_text (py "A"));
     Ext (call_HuggingFaceEmbeddings embedding_model);
     Ext (call_FAISS_from_texts [py "A"]);
     UI (st_success (check_mark :: py " Vectorstore created successfully."));
     UI (st_spinner (robot :: py " Generating blog-style summary..."));
     Ext (call_ChatGroq llm_args);
     Ext (call_RetrievalQA_from_chain_type prompt);
     Ext (call_invoke (py "A"))]
  /\ summarize torn_pdf_empty_answer_world (Vectorstore 0) (py "A")
     = ([Ext (call_ChatGroq llm_args);
         Ext (call_RetrievalQA_from_chain_type prompt);
         Ext (call_invoke (py "A"))], Returns (Some []))
  /\ filter is_error (fst (run torn_pdf_empty_answer_world (Some [])))
     = [UI (st_error (py "Error extracting text from PDF: " ++ py "cannot load page"))].
Proof. repeat split. Qed.

(** ** A summary that is shown *)

Lemma C7_witness :
  summary_block hello_world (Vectorstore 0) (py "Hello world.")
  = ([Ext (call_ChatGroq llm_args);
      Ext (call_RetrievalQA_from_chain_type prompt);
      Ext (call_invoke (py "Hello world."));
      UI (st_subheader (memo :: py " Blog Summary"));
      UI (st_write (py "A summary."));
      UI (st_download_button (inbox :: py " Download Summary") (py "A summary.")
            (py "summary.txt") (py "text/plain"))],
     Returns tt).
Proof.
  destruct (C7_summary_shown_iff_nonempty hello_world (Vectorstore 0) (py "Hello world."))
    as (log & r & E & _ & _ & Hc & _ & B).
  rewrite (Hc (Llm 0) (Chain 0) [(py "result", py "A summary.")] (py "A summary.")
             eq_refl eq_refl eq_refl eq_refl) in *.
  injection E as <-. exact B.
Defined.
